(** * scripts/setup_deps.py: the vcpkg bootstrap script, embedded and verified

    The script is a linear sequence of effectful steps: it reads the host
    platform, probes the search path, runs external commands and prints.
    The embedding keeps that shape.  Python functions become computations
    in a small monad that threads the outside world, records what the
    script prints, calls and spawns, and propagates exceptions.  The
    operating system, [pathlib], [shutil] and [subprocess] are not code of
    the script; they are gathered in a [Host] record the development is
    parametric in, and a concrete [Sim] host is used to run the model. *)

From Stdlib Require Import String Ascii List Bool ZArith NArith DecimalString.
Import ListNotations.
Local Open Scope string_scope.

(** ** Python strings

    A Rocq [string] stands for a Python [str] whose characters are the
    code points below 256, one [ascii] per code point.  On that range
    [str.isspace], [str.lower], [str.strip] and [str.split] are as below. *)
Module PyStr.

Definition code (c : ascii) : N := N_of_ascii c.

(** [c.isspace()]: TAB..CR, FS..US, SPACE, NEL and NBSP. *)
Definition isspace (c : ascii) : bool :=
  let n := code c in
  ((9 <=? n) && (n <=? 13) || (28 <=? n) && (n <=? 32)
   || (n =? 133) || (n =? 160))%N.

(** [c.lower()] for one character: A..Z and the accented capitals
    U+00C0..U+00DE (the multiplication sign U+00D7 apart) move by 32. *)
Definition lower_char (c : ascii) : ascii :=
  let n := code c in
  if ((65 <=? n) && (n <=? 90)
      || (192 <=? n) && (n <=? 222) && negb (n =? 215))%N
  then ascii_of_N (n + 32) else c.

Fixpoint lower (s : string) : string :=
  match s with
  | EmptyString => EmptyString
  | String c s' => String (lower_char c) (lower s')
  end.

(** Truth value of a string: only the empty string is falsy. *)
Definition truthy (s : string) : bool :=
  match s with EmptyString => false | String _ _ => true end.

Fixpoint lstrip (s : string) : string :=
  match s with
  | EmptyString => EmptyString
  | String c s' => if isspace c then lstrip s' else s
  end.

Fixpoint rstrip (s : string) : string :=
  match s with
  | EmptyString => EmptyString
  | String c s' =>
      let r := rstrip s' in
      if isspace c && negb (truthy r) then EmptyString else String c r
  end.

(** [s.strip()] *)
Definition strip (s : string) : string := rstrip (lstrip s).

(** [s.split()] with no separator: maximal runs of non-space characters.
    [cur] is the run being read. *)
Fixpoint split_from (cur s : string) : list string :=
  match s with
  | EmptyString => if truthy cur then [cur] else []
  | String c s' =>
      if isspace c
      then (if truthy cur then cur :: split_from EmptyString s'
            else split_from EmptyString s')
      else split_from (cur ++ String c EmptyString) s'
  end.

Definition split (s : string) : list string := split_from EmptyString s.

(** [sep.join(l)] *)
Definition join (sep : string) (l : list string) : string := String.concat sep l.

(** [str(n)] for an integer. *)
Definition of_int (n : Z) : string := NilZero.string_of_int (Z.to_int n).

Definition all_space (s : string) : Prop :=
  Forall (fun c => isspace c = true) (list_ascii_of_string s).

Definition no_space (s : string) : Prop :=
  Forall (fun c => isspace c = false) (list_ascii_of_string s).

(** The first and the last character of [s], when there is one. *)
Definition first_char (s : string) : option ascii :=
  match s with EmptyString => None | String c _ => Some c end.

Fixpoint last_char (s : string) : option ascii :=
  match s with
  | EmptyString => None
  | String c EmptyString => Some c
  | String _ s' => last_char s'
  end.

Definition NL : string := String (ascii_of_nat 10) EmptyString.

(** [s] is empty or starts with a space: a word may end before it. *)
Definition boundary (s : string) : Prop :=
  match s with
  | EmptyString => True
  | String c _ => isspace c = true
  end.

(** [words_of s ws]: [s] is the words [ws], in this order, each of them
    non-empty and free of spaces, with spaces and nothing else before,
    between and after them, and at least one between two words. *)
Inductive words_of : string -> list string -> Prop :=
| words_none (s : string) : all_space s -> words_of s []
| words_more (pre w rest : string) (ws : list string) :
    all_space pre -> w <> EmptyString -> no_space w -> boundary rest ->
    words_of rest ws ->
    words_of (pre ++ w ++ rest) (w :: ws).

(** Some character of [s] is a space. *)
Definition has_space (s : string) : bool := existsb isspace (list_ascii_of_string s).

(** The characters of [s] that are not spaces. *)
Fixpoint without_spaces (s : string) : string :=
  match s with
  | EmptyString => EmptyString
  | String c s' => if isspace c then without_spaces s' else String c (without_spaces s')
  end.

End PyStr.

(** ** Dictionaries of environment variables

    [os.environ.copy()] and the [env] argument are string-keyed dicts;
    an association list in insertion order with unique keys. *)
Module Dict.

Definition t := list (string * string).

Fixpoint set (d : t) (k v : string) : t :=
  match d with
  | [] => [(k, v)]
  | (k', v') :: d' => if String.eqb k' k then (k, v) :: d' else (k', v') :: set d' k v
  end.

(** [d.update(e)] *)
Definition update (d e : t) : t := fold_left (fun acc kv => set acc (fst kv) (snd kv)) e d.

Definition truthy (d : option t) : bool :=
  match d with Some (_ :: _) => true | _ => false end.

(** [d.get(k)] *)
Fixpoint get (d : t) (k : string) : option string :=
  match d with
  | [] => None
  | (k', v) :: d' => if String.eqb k' k then Some v else get d' k
  end.

(** The binding [e] leaves for [k] when its pairs are written one after
    the other: the last one. *)
Definition last_binding (e : t) (k : string) : option string := get (rev e) k.

End Dict.

(** ** Exceptions, events and the host *)

(** The exceptions that reach the script.  [HostError] stands for what
    the host raises on its own (e.g. [FileNotFoundError] when a program
    cannot be started); [SystemExit] is how [argparse] ends a run. *)
Inductive exn : Type :=
| CalledProcessError (returncode : Z) (cmd : list string)
                     (stdout stderr : option string)
| RuntimeError (msg : string)
| HostError (name msg : string)
| SystemExit (status : Z).

Inductive result (A : Type) : Type :=
| Return (a : A)
| Raise (e : exn).
Arguments Return {A} a.
Arguments Raise {A} e.

(** What a started (or not started) child process reports back. *)
Inductive proc_outcome : Type :=
| Exited (code : Z) (out err : string)
| SpawnFailed (name msg : string).

(** The [cmd] argument of [run_command]: a list of strings or one string. *)
Inductive command : Type :=
| CmdList (argv : list string)
| CmdStr (line : string).

Section Script.

(** [W] is the state of the outside world (file system, search path,
    network); [Path] is [pathlib.Path]. *)
Context {W Path : Type}.

(** Calls of the script's own functions, as they are entered. *)
Inductive call : Type :=
| CallGetPlatform
| CallGetTriplet
| CallRunCommand (cmd : command) (cwd : option Path)
                 (env : option Dict.t) (capture : bool)
| CallCheckTool (tool : string)
| CallCheckDependencies
| CallSetupVcpkg (project_root : Path) (verbose : bool)
| CallInstallDependencies (vcpkg_dir project_root : Path)
                          (triplet : string) (verbose : bool).

Inductive event : Type :=
| EvPrint (line : string)
| EvCall (c : call)
| EvSpawn (argv : list string) (cwd : option Path) (env : Dict.t)
          (capture : bool).

Record Host : Type := {
  platform_system : string;               (* platform.system() *)
  platform_machine : string;              (* platform.machine() *)
  script_file : string;                   (* __file__ *)
  path_of : string -> Path;               (* Path(s) *)
  path_join : Path -> string -> Path;     (* p / s *)
  path_str : Path -> string;              (* str(p) *)
  path_parent : Path -> Path;             (* p.parent *)
  path_resolve : W -> Path -> Path;       (* p.resolve() *)
  path_exists : W -> Path -> bool;        (* p.exists() *)
  shutil_which : W -> string -> option string;
  os_environ : W -> Dict.t;
  (* subprocess: run [argv] in [cwd] with [env]; the last argument is
     capture_output *)
  spawn : W -> list string -> option Path -> Dict.t -> bool
          -> proc_outcome * W
}.

Variable H : Host.

(** *** The monad: world in, result, world and events out *)

Record Out (A : Type) : Type := mkOut {
  res : result A;
  world : W;
  trace : list event
}.
Arguments mkOut {A} _ _ _.
Arguments res {A} _.
Arguments world {A} _.
Arguments trace {A} _.

Definition M (A : Type) : Type := W -> Out A.

Definition ret {A} (a : A) : M A := fun w => mkOut (Return a) w [].

Definition raise {A} (e : exn) : M A := fun w => mkOut (Raise e) w [].

Definition bind {A B} (m : M A) (f : A -> M B) : M B :=
  fun w =>
    match m w with
    | mkOut (Return a) w1 t1 =>
        match f a w1 with
        | mkOut r w2 t2 => mkOut r w2 (t1 ++ t2)%list
        end
    | mkOut (Raise e) w1 t1 => mkOut (Raise e) w1 t1
    end.

(** [try: m  except CalledProcessError as e: h e]; other exceptions pass. *)
Definition try_called_process_error {A} (m : M A)
    (h : Z -> list string -> option string -> option string -> M A) : M A :=
  fun w =>
    match m w with
    | mkOut (Raise (CalledProcessError rc cmd out err)) w1 t1 =>
        match h rc cmd out err w1 with
        | mkOut r w2 t2 => mkOut r w2 (t1 ++ t2)%list
        end
    | o => o
    end.

Definition emit (e : event) : M unit := fun w => mkOut (Return tt) w [e].

Definition print (line : string) : M unit := emit (EvPrint line).

Definition enter (c : call) : M unit := emit (EvCall c).

Definition ask {A} (f : W -> A) : M A := fun w => mkOut (Return (f w)) w [].

Notation "x <- m ;; k" := (bind m (fun x => k))
  (at level 61, m at next level, right associativity).
Notation "m ;; k" := (bind m (fun _ => k))
  (at level 61, right associativity).

(** *** subprocess.run(argv, cwd=..., env=..., capture_output=..., check=True)

    Returns the captured standard output ([None] when not capturing). *)
Definition subprocess_run_check (argv : list string) (cwd : option Path)
    (env : Dict.t) (capture : bool) : M (option string) :=
  fun w =>
    let '(po, w') := spawn H w argv cwd env capture in
    let ev := [EvSpawn argv cwd env capture] in
    match po with
    | Exited code out err =>
        let cap (s : string) := if capture then Some s else None in
        if (code =? 0)%Z then mkOut (Return (cap out)) w' ev
        else mkOut (Raise (CalledProcessError code argv (cap out) (cap err))) w' ev
    | SpawnFailed name msg => mkOut (Raise (HostError name msg)) w' ev
    end.

(** *** The script *)

Definition system : string := PyStr.lower (platform_system H).
Definition machine : string := PyStr.lower (platform_machine H).

Definition get_platform : M string :=
  enter CallGetPlatform ;;
  ret system.

(** The table of [get_triplet], as a function of the two lowered names. *)
Definition triplet_of (system machine : string) : string :=
  if system =? "windows" then "x64-mingw-static"
  else if system =? "darwin" then
    (if machine =? "arm64" then "arm64-osx" else "x64-osx")
  else "x64-linux".

Definition get_triplet : M string :=
  enter CallGetTriplet ;;
  ret (triplet_of system machine).

Definition optstr_truthy (s : option string) : bool :=
  match s with Some s => PyStr.truthy s | None => false end.

Definition run_command (cmd : command) (cwd : option Path)
    (env : option Dict.t) (capture : bool) : M (option string) :=
  enter (CallRunCommand cmd cwd env capture) ;;
  print ("Running: " ++ match cmd with
                        | CmdList l => PyStr.join " " l
                        | CmdStr s => s
                        end) ;;
  let argv := match cmd with
              | CmdStr s => PyStr.split s
              | CmdList l => l
              end in
  environ <- ask (os_environ H) ;;
  let merged_env :=
    if Dict.truthy env
    then Dict.update environ (match env with Some e => e | None => [] end)
    else environ in
  try_called_process_error
    (if capture then
       out <- subprocess_run_check argv cwd merged_env true ;;
       ret (option_map PyStr.strip out)
     else
       subprocess_run_check argv cwd merged_env false ;;
       ret None)
    (fun returncode ecmd eout eerr =>
       print ("Command failed with exit code " ++ PyStr.of_int returncode) ;;
       (if capture && optstr_truthy eerr
        then print ("Error: " ++ match eerr with Some s => s | None => "" end)
        else ret tt) ;;
       raise (CalledProcessError returncode ecmd eout eerr)).

Definition check_tool (tool : string) : M bool :=
  enter (CallCheckTool tool) ;;
  found <- ask (fun w => shutil_which H w tool) ;;
  ret (match found with Some _ => true | None => false end).

(** The tools [check_dependencies] looks for on a given system. *)
Definition required_tools (system : string) : list string :=
  (["git"; "cmake"; "ninja"]
   ++ (if system =? "windows" then ["clang"]
       else if system =? "darwin" then ["clang"]
       else ["gcc"]))%list.

(** The remediation line printed when a tool is missing. *)
Definition install_hint (system : string) : string :=
  if system =? "linux"
  then "  sudo apt-get install build-essential cmake ninja-build git"
  else if system =? "darwin" then "  brew install cmake ninja git"
  else "  choco install cmake ninja git llvm".

(** The [for tool in required] loop; [missing] is the list built so far. *)
Fixpoint collect_missing (required missing : list string) : M (list string) :=
  match required with
  | [] => ret missing
  | tool :: rest =>
      ok <- check_tool tool ;;
      collect_missing rest (if negb ok then (missing ++ [tool])%list else missing)
  end.

Definition check_dependencies : M bool :=
  enter CallCheckDependencies ;;
  let required := required_tools system in
  missing <- collect_missing required [] ;;
  match missing with
  | _ :: _ =>
      print ("Missing required tools: " ++ PyStr.join ", " missing) ;;
      print (PyStr.NL ++ "Please install the missing tools:") ;;
      print (install_hint system) ;;
      ret false
  | [] => ret true
  end.

Definition setup_vcpkg (project_root : Path) (verbose : bool) : M Path :=
  enter (CallSetupVcpkg project_root verbose) ;;
  let vcpkg_dir := path_join H project_root "vcpkg" in
  present <- ask (fun w => path_exists H w vcpkg_dir) ;;
  (if negb present then
     print "Cloning vcpkg..." ;;
     run_command (CmdList ["git"; "clone";
                           "https://github.com/microsoft/vcpkg.git";
                           path_str H vcpkg_dir]) None None false
   else
     print "Updating vcpkg..." ;;
     run_command (CmdList ["git"; "pull"]) (Some vcpkg_dir) None false) ;;
  (if system =? "windows" then
     let bootstrap_script := path_join H vcpkg_dir "bootstrap-vcpkg.bat" in
     run_command (CmdList [path_str H bootstrap_script; "-disableMetrics"])
                 (Some vcpkg_dir) None false
   else
     let bootstrap_script := path_join H vcpkg_dir "bootstrap-vcpkg.sh" in
     run_command (CmdList ["sh"; path_str H bootstrap_script; "-disableMetrics"])
                 (Some vcpkg_dir) None false) ;;
  ret vcpkg_dir.

(** The path whose presence [install_dependencies] tests. *)
Definition vcpkg_exe_of (vcpkg_dir : Path) : Path :=
  path_join H vcpkg_dir (if system =? "windows" then "vcpkg.exe" else "vcpkg").

Definition install_dependencies (vcpkg_dir project_root : Path)
    (triplet : string) (verbose : bool) : M unit :=
  enter (CallInstallDependencies vcpkg_dir project_root triplet verbose) ;;
  let vcpkg_exe := vcpkg_exe_of vcpkg_dir in
  present <- ask (fun w => path_exists H w vcpkg_exe) ;;
  if negb present then
    raise (RuntimeError ("vcpkg executable not found at " ++ path_str H vcpkg_exe))
  else
    print ("Installing dependencies for triplet: " ++ triplet) ;;
    let cmd :=
      [path_str H vcpkg_exe;
       "install";
       "--triplet=" ++ triplet;
       "--x-manifest-root=" ++ path_str H project_root;
       "--x-install-root=" ++ path_str H (path_join H project_root "vcpkg_installed")] in
    let cmd := if verbose then (cmd ++ ["--debug"])%list else cmd in
    run_command (CmdList cmd) (Some project_root) None false ;;
    ret tt.

(** The parsed command line: [argparse]'s namespace. *)
Record Args : Type := mkArgs {
  arg_verbose : bool;
  arg_check : bool;
  arg_triplet : option string;
  arg_vcpkg_root : option string
}.

(** [main] from line 163 on, run on the namespace [parse_args] returned;
    the lines before are in [main_from_argv] below. *)
Definition main (args : Args) : M Z :=
  script_dir <- ask (fun w => path_resolve H w (path_parent H (path_of H (script_file H)))) ;;
  let project_root := path_parent H script_dir in
  print ("Project root: " ++ path_str H project_root) ;;
  plat <- get_platform ;;
  print ("Platform: " ++ plat) ;;
  ok <- check_dependencies ;;
  if negb ok then ret 1%Z
  else if arg_check args then
    print "All required tools are available." ;;
    ret 0%Z
  else
    triplet <- (if optstr_truthy (arg_triplet args)
                then ret (match arg_triplet args with Some t => t | None => "" end)
                else get_triplet) ;;
    print ("Using triplet: " ++ triplet) ;;
    if optstr_truthy (arg_vcpkg_root args) then
      let vcpkg_dir := path_of H (match arg_vcpkg_root args with
                                  | Some r => r | None => "" end) in
      present <- ask (fun w => path_exists H w vcpkg_dir) ;;
      if negb present then
        print ("Error: Specified vcpkg root does not exist: " ++ path_str H vcpkg_dir) ;;
        ret 1%Z
      else
        install_dependencies vcpkg_dir project_root triplet (arg_verbose args) ;;
        print (PyStr.NL ++ "Setup complete!") ;;
        print ("Dependencies installed to: "
               ++ path_str H (path_join H (path_join H project_root "vcpkg_installed") triplet)) ;;
        ret 0%Z
    else
      vcpkg_dir <- setup_vcpkg project_root (arg_verbose args) ;;
      install_dependencies vcpkg_dir project_root triplet (arg_verbose args) ;;
      print (PyStr.NL ++ "Setup complete!") ;;
      print ("Dependencies installed to: "
             ++ path_str H (path_join H (path_join H project_root "vcpkg_installed") triplet)) ;;
      ret 0%Z.

(** What [parser.parse_args()] does with a command line: it returns the
    namespace, or ends the run itself by raising [SystemExit] (status 0
    after printing the help for -h/--help, status 2 after a usage error). *)
Inductive parse_outcome : Type :=
| Parsed (args : Args)
| ParseExit (status : Z).

(** [main()] from its first line: the parser built at lines 156-160 is
    [parse_args], [argv] is the command line it reads; the rest of the
    function is [main] above, run on the namespace.  What [argparse]
    writes on its own is not a [print] of the script and is not logged. *)
Definition main_from_argv (parse_args : list string -> parse_outcome)
    (argv : list string) : M Z :=
  match parse_args argv with
  | Parsed args => main args
  | ParseExit status => raise (SystemExit status)
  end.

End Script.

Arguments mkOut {W Path A} _ _ _.
Arguments res {W Path A} _.
Arguments world {W Path A} _.
Arguments trace {W Path A} _.

(** ** A simulated host

    Paths are POSIX strings, the world is the list of paths that exist,
    the search path holds the tools listed in [tools], and a child process
    ends as [outcome] says.  A clone that succeeds creates its target, a
    bootstrap that succeeds creates the executable next to the script. *)
Module Sim.

Definition Path := string.
Definition World := list string.

Definition of_string (s : string) : Path := if PyStr.truthy s then s else ".".

Definition join (p : Path) (s : string) : Path := p ++ "/" ++ s.

(** Everything before the last slash, if there is a slash. *)
Fixpoint before_last_slash (s : string) : option string :=
  match s with
  | EmptyString => None
  | String c s' =>
      match before_last_slash s' with
      | Some p => Some (String c p)
      | None => if Ascii.eqb c "/" then Some EmptyString else None
      end
  end.

Definition parent (p : Path) : Path :=
  match before_last_slash p with
  | Some EmptyString => "/"
  | Some d => d
  | None => "."
  end.

Definition exists_in (w : World) (p : Path) : bool := existsb (String.eqb p) w.

Definition which (tools : list string) (w : World) (tool : string) : option string :=
  if existsb (String.eqb tool) tools then Some ("/usr/bin/" ++ tool) else None.

Definition is_suffix (suf s : string) : bool :=
  let n := Nat.sub (String.length s) (String.length suf) in
  String.eqb (substring n (String.length suf) s) suf
  && Nat.leb (String.length suf) (String.length s).

Definition run_child (outcome : list string -> proc_outcome) (w : World)
    (argv : list string) (cwd : option Path) (env : Dict.t) (capture : bool)
    : proc_outcome * World :=
  match outcome argv with
  | Exited 0 out err =>
      let w' :=
        match argv, cwd with
        | ["git"; "clone"; _; target], _ => target :: w
        | [script; "-disableMetrics"], Some d =>
            if is_suffix "bootstrap-vcpkg.bat" script then (d ++ "/vcpkg.exe") :: w else w
        | ["sh"; script; "-disableMetrics"], Some d =>
            if is_suffix "bootstrap-vcpkg.sh" script then (d ++ "/vcpkg") :: w else w
        | _, _ => w
        end in
      (Exited 0 out err, w')
  | po => (po, w)
  end.

Definition host (sysname mach : string) (tools : list string)
    (outcome : list string -> proc_outcome) : @Host World Path :=
  {| platform_system := sysname;
     platform_machine := mach;
     script_file := "/repo/scripts/setup_deps.py";
     path_of := of_string;
     path_join := join;
     path_str := fun p => p;
     path_parent := parent;
     path_resolve := fun _ p => p;
     path_exists := exists_in;
     shutil_which := which tools;
     os_environ := fun _ => [("PATH", "/usr/bin")];
     spawn := run_child outcome |}.

Definition all_ok (argv : list string) : proc_outcome := Exited 0 "" "".

Definition linux_tools : list string := ["git"; "cmake"; "ninja"; "gcc"].
Definition clang_tools : list string := ["git"; "cmake"; "ninja"; "clang"].

Definition linux : @Host World Path := host "Linux" "x86_64" linux_tools all_ok.
Definition mac_arm : @Host World Path := host "Darwin" "arm64" clang_tools all_ok.
Definition mac_intel : @Host World Path := host "Darwin" "x86_64" clang_tools all_ok.
Definition windows : @Host World Path := host "Windows" "AMD64" clang_tools all_ok.
Definition freebsd : @Host World Path := host "FreeBSD" "amd64" ["git"; "cmake"] all_ok.

(** A fresh checkout: only the repository and its script exist. *)
Definition fresh : World := ["/repo"; "/repo/scripts"; "/repo/scripts/setup_deps.py"; "."].

(** A host without network: every git command ends with status 128. *)
Definition git_fails (argv : list string) : proc_outcome :=
  match argv with
  | "git" :: _ => Exited 128 "" "fatal: unable to access the remote"
  | _ => Exited 0 "" ""
  end.

Definition offline : @Host World Path := host "Linux" "x86_64" linux_tools git_fails.

(** A host on which no program can be started. *)
Definition no_exec (argv : list string) : proc_outcome :=
  SpawnFailed "FileNotFoundError" "No such file or directory".

Definition broken : @Host World Path := host "Linux" "x86_64" linux_tools no_exec.

(** A parser for command lines that spell each flag out in full:
    --verbose or -v, --check, --triplet VALUE, --vcpkg-root VALUE, and
    -h or --help; anything else is a usage error. *)
Fixpoint parse_from (args : Args) (argv : list string) : parse_outcome :=
  match argv with
  | [] => Parsed args
  | "-h" :: _ => ParseExit 0
  | "--help" :: _ => ParseExit 0
  | "-v" :: rest =>
      parse_from (mkArgs true (arg_check args) (arg_triplet args) (arg_vcpkg_root args)) rest
  | "--verbose" :: rest =>
      parse_from (mkArgs true (arg_check args) (arg_triplet args) (arg_vcpkg_root args)) rest
  | "--check" :: rest =>
      parse_from (mkArgs (arg_verbose args) true (arg_triplet args) (arg_vcpkg_root args)) rest
  | "--triplet" :: v :: rest =>
      parse_from (mkArgs (arg_verbose args) (arg_check args) (Some v) (arg_vcpkg_root args)) rest
  | "--vcpkg-root" :: v :: rest =>
      parse_from (mkArgs (arg_verbose args) (arg_check args) (arg_triplet args) (Some v)) rest
  | _ => ParseExit 2
  end.

Definition parse_args (argv : list string) : parse_outcome :=
  parse_from (mkArgs false false None None) argv.

(** Hosts with git alone on the search path. *)
Definition bare_linux : @Host World Path := host "Linux" "x86_64" ["git"] all_ok.
Definition bare_mac : @Host World Path := host "Darwin" "arm64" ["git"] all_ok.

(** A host on which every command exits with zero and changes nothing. *)
Definition inert : @Host World Path :=
  {| platform_system := "Linux";
     platform_machine := "x86_64";
     script_file := "/repo/scripts/setup_deps.py";
     path_of := of_string;
     path_join := join;
     path_str := fun p => p;
     path_parent := parent;
     path_resolve := fun _ p => p;
     path_exists := exists_in;
     shutil_which := which linux_tools;
     os_environ := fun _ => [("PATH", "/usr/bin")];
     spawn := fun w _ _ _ _ => (Exited 0 "" "", w) |}.

(** A world with the checkout cloned and bootstrapped, at /repo/vcpkg and
    at /opt/vcpkg. *)
Definition ready : World :=
  ["/repo/vcpkg/vcpkg"; "/repo/vcpkg"; "/opt/vcpkg/vcpkg"; "/opt/vcpkg";
   "/repo"; "/repo/scripts"; "/repo/scripts/setup_deps.py"; "."].

End Sim.


(** ** What the claims speak about *)

Section Observations.

Context {W Path : Type}.
Variable H : @Host W Path.

(** [shutil.which(tool) is not None] in world [w]. *)
Definition found (w : W) (tool : string) : bool :=
  match shutil_which H w tool with Some _ => true | None => false end.

(** The required tools that are not on the search path in [w]. *)
Definition missing_tools (w : W) : list string :=
  filter (fun t => negb (found w t)) (required_tools (system H)).

(** The project root [main] derives from the script's location. *)
Definition project_root_of (w : W) : Path :=
  path_parent H (path_resolve H w (path_parent H (path_of H (script_file H)))).

(** What [main] prints and calls before it checks the tools. *)
Definition main_header (w : W) : list (@event Path) :=
  [EvPrint ("Project root: " ++ path_str H (project_root_of w));
   EvCall CallGetPlatform;
   EvPrint ("Platform: " ++ system H)].

(** The events of [check_dependencies] in world [w]. *)
Definition check_trace (w : W) : list (@event Path) :=
  (EvCall CallCheckDependencies
   :: map (fun t => EvCall (CallCheckTool t)) (required_tools (system H))
   ++ match missing_tools w with
      | [] => []
      | _ :: _ =>
          [EvPrint ("Missing required tools: " ++ PyStr.join ", " (missing_tools w));
           EvPrint (PyStr.NL ++ "Please install the missing tools:");
           EvPrint (install_hint (system H))]
      end)%list.

(** The triplet [main] settles on, and the events of settling on it. *)
Definition triplet_used (args : Args) : string :=
  match arg_triplet args with
  | Some (String c t) => String c t
  | _ => triplet_of (system H) (machine H)
  end.

Definition triplet_trace (args : Args) : list (@event Path) :=
  ((if optstr_truthy (arg_triplet args) then [] else [EvCall CallGetTriplet])
   ++ [EvPrint ("Using triplet: " ++ triplet_used args)])%list.

Definition is_spawn (e : @event Path) : bool :=
  match e with EvSpawn _ _ _ _ => true | _ => false end.

(** An event is compatible with the override [t]: it is not a call of
    [get_triplet], and if it is a call of [install_dependencies], the
    triplet passed is [t]. *)
Definition honours_override (t : string) (e : @event Path) : bool :=
  match e with
  | EvCall CallGetTriplet => false
  | EvCall (CallInstallDependencies _ _ t' _) => String.eqb t' t
  | _ => true
  end.

(** A run of [main] uses the override [t] and nothing else. *)
Definition override_respected (args : Args) (w : W) (t : string) : Prop :=
  forallb (honours_override t) (trace (main H args w)) = true.

(** The events that stand for work on the checkout or the install tree:
    a child process is spawned, or [run_command], [setup_vcpkg] or
    [install_dependencies] is entered. *)
Definition is_action (e : @event Path) : bool :=
  match e with
  | EvSpawn _ _ _ _ => true
  | EvCall (CallRunCommand _ _ _ _) => true
  | EvCall (CallSetupVcpkg _ _) => true
  | EvCall (CallInstallDependencies _ _ _ _) => true
  | _ => false
  end.

Definition no_action (t : list (@event Path)) : Prop :=
  forallb (fun e => negb (is_action e)) t = true.

(** A run of [main] ends with status 1 and without any action. *)
Definition fails_before_any_command (args : Args) (w : W) : Prop :=
  res (main H args w) = Return 1%Z
  /\ world (main H args w) = w
  /\ no_action (trace (main H args w)).

(** [m] logs only events [ok] accepts, and what it returns satisfies [Q]. *)
Definition logs_only {A} (ok : @event Path -> bool) (m : @M W Path A)
    (Q : A -> Prop) : Prop :=
  forall w, forallb ok (trace (m w)) = true
            /\ forall a, res (m w) = Return a -> Q a.

(** [ok] accepts what printing, spawning and the helper functions log. *)
Definition accepts_io (ok : @event Path -> bool) : Prop :=
  (forall l, ok (EvPrint l) = true)
  /\ (forall argv cwd env cap, ok (EvSpawn argv cwd env cap) = true)
  /\ (forall cmd cwd env cap, ok (EvCall (CallRunCommand cmd cwd env cap)) = true)
  /\ (forall tool, ok (EvCall (CallCheckTool tool)) = true)
  /\ ok (EvCall CallCheckDependencies) = true
  /\ ok (EvCall CallGetPlatform) = true
  /\ (forall r v, ok (EvCall (CallSetupVcpkg r v)) = true).

(** The argument vector [run_command] hands to [subprocess.run]. *)
Definition argv_of (cmd : command) : list string :=
  match cmd with CmdStr s => PyStr.split s | CmdList l => l end.

(** The environment [run_command] hands to [subprocess.run]. *)
Definition merged_env_of (w : W) (env : option Dict.t) : Dict.t :=
  if Dict.truthy env
  then Dict.update (os_environ H w) (match env with Some e => e | None => [] end)
  else os_environ H w.

(** What [run_command] logs before the child process is started. *)
Definition run_prologue (cmd : command) (cwd : option Path)
    (env : option Dict.t) (capture : bool) : list (@event Path) :=
  [EvCall (CallRunCommand cmd cwd env capture);
   EvPrint ("Running: " ++ match cmd with
                           | CmdList l => PyStr.join " " l
                           | CmdStr s => s
                           end)].

(** The spawn event of a [run_command]. *)
Definition spawn_event (w : W) (cmd : command) (cwd : option Path)
    (env : option Dict.t) (capture : bool) : @event Path :=
  EvSpawn (argv_of cmd) cwd (merged_env_of w env) capture.

(** What [run_command] prints when the child exits with [code] other than
    zero and [err] on its standard error. *)
Definition failure_report (capture : bool) (code : Z) (err : string)
    : list (@event Path) :=
  (EvPrint ("Command failed with exit code " ++ PyStr.of_int code)
   :: (if capture && PyStr.truthy err then [EvPrint ("Error: " ++ err)] else []))%list.

(** *** Observations on the bootstrap and install steps *)

(** The checkout [setup_vcpkg] works on. *)
Definition vcpkg_dir_of (project_root : Path) : Path :=
  path_join H project_root "vcpkg".

(** The git command [setup_vcpkg] runs first, the directory it runs it
    in, and the line it prints before: a clone when the checkout is not
    there, a pull inside it when it is. *)
Definition fetch_command (project_root : Path) (w : W) : command :=
  if path_exists H w (vcpkg_dir_of project_root)
  then CmdList ["git"; "pull"]
  else CmdList ["git"; "clone"; "https://github.com/microsoft/vcpkg.git";
                path_str H (vcpkg_dir_of project_root)].

Definition fetch_cwd (project_root : Path) (w : W) : option Path :=
  if path_exists H w (vcpkg_dir_of project_root)
  then Some (vcpkg_dir_of project_root) else None.

Definition fetch_banner (project_root : Path) (w : W) : string :=
  if path_exists H w (vcpkg_dir_of project_root)
  then "Updating vcpkg..." else "Cloning vcpkg...".

(** The bootstrap command of [setup_vcpkg]. *)
Definition bootstrap_command (project_root : Path) : command :=
  if system H =? "windows"
  then CmdList [path_str H (path_join H (vcpkg_dir_of project_root) "bootstrap-vcpkg.bat");
                "-disableMetrics"]
  else CmdList ["sh";
                path_str H (path_join H (vcpkg_dir_of project_root) "bootstrap-vcpkg.sh");
                "-disableMetrics"].

(** The argument vector [install_dependencies] builds. *)
Definition install_argv (vcpkg_dir project_root : Path) (triplet : string)
    (verbose : bool) : list string :=
  let cmd :=
    [path_str H (vcpkg_exe_of H vcpkg_dir);
     "install";
     "--triplet=" ++ triplet;
     "--x-manifest-root=" ++ path_str H project_root;
     "--x-install-root=" ++ path_str H (path_join H project_root "vcpkg_installed")] in
  if verbose then (cmd ++ ["--debug"])%list else cmd.

(** The two lines [main] prints after a successful install. *)
Definition success_lines (args : Args) (w : W) : list (@event Path) :=
  [EvPrint (PyStr.NL ++ "Setup complete!");
   EvPrint ("Dependencies installed to: "
            ++ path_str H (path_join H (path_join H (project_root_of w) "vcpkg_installed")
                                     (triplet_used args)))].

(** What is left of a trace when only the spawned processes are kept. *)
Definition spawns (t : list (@event Path)) : list (@event Path) := filter is_spawn t.

Definition is_setup_call (e : @event Path) : bool :=
  match e with EvCall (CallSetupVcpkg _ _) => true | _ => false end.

Definition is_install_call (e : @event Path) : bool :=
  match e with EvCall (CallInstallDependencies _ _ _ _) => true | _ => false end.

End Observations.

Arguments check_dependencies : simpl never.
Arguments setup_vcpkg : simpl never.
Arguments install_dependencies : simpl never.
Arguments run_command : simpl never.

(** ** Facts about the string operations *)

Module PyStrFacts.
Import PyStr.

Lemma truthy_false (s : string) : truthy s = false <-> s = EmptyString.
Proof. destruct s; simpl; split; congruence. Qed.

Lemma truthy_true (s : string) : truthy s = true <-> s <> EmptyString.
Proof. destruct s; simpl; split; congruence. Qed.

Lemma append_nil_r (s : string) : s ++ EmptyString = s.
Proof. induction s; simpl; congruence. Qed.

Lemma append_assoc (a b c : string) : (a ++ b) ++ c = a ++ (b ++ c).
Proof. induction a; simpl; congruence. Qed.

Lemma list_ascii_app (a b : string) :
  list_ascii_of_string (a ++ b) = (list_ascii_of_string a ++ list_ascii_of_string b)%list.
Proof. induction a; simpl; congruence. Qed.

Lemma lstrip_spec (s : string) :
  exists pre, s = pre ++ lstrip s /\ all_space pre
              /\ forall c, first_char (lstrip s) = Some c -> isspace c = false.
Proof.
  induction s as [|c s IH]; simpl.
  - exists EmptyString. repeat split; [constructor | discriminate].
  - destruct (isspace c) eqn:E.
    + destruct IH as (pre & E1 & E2 & E3).
      exists (String c pre). repeat split.
      * simpl. now rewrite <- E1.
      * constructor; assumption.
      * assumption.
    + exists EmptyString. repeat split; [constructor |].
      simpl. intros c' [= <-]. assumption.
Qed.

Lemma rstrip_spec (s : string) :
  exists post, s = rstrip s ++ post /\ all_space post
               /\ forall c, last_char (rstrip s) = Some c -> isspace c = false.
Proof.
  induction s as [|c s IH]; simpl.
  - exists EmptyString. repeat split; [constructor | discriminate].
  - destruct IH as (post & E1 & E2 & E3).
    destruct (isspace c) eqn:Ec; simpl.
    + destruct (rstrip s) as [|d r] eqn:Er; simpl.
      * exists (String c post). repeat split; try discriminate.
        -- simpl in E1. now rewrite <- E1.
        -- constructor; assumption.
      * exists post. repeat split; try assumption.
        now rewrite E1 at 1.
    + exists post. repeat split; try assumption.
      * now rewrite E1 at 1.
      * destruct (rstrip s) as [|d r] eqn:Er.
        -- intros c' [= <-]. assumption.
        -- exact E3.
Qed.

Lemma rstrip_first (s : string) :
  rstrip s <> EmptyString -> first_char (rstrip s) = first_char s.
Proof.
  destruct s as [|c s]; simpl; [reflexivity|].
  destruct (isspace c && negb (truthy (rstrip s))); simpl; congruence.
Qed.

(** [strip] removes a run of spaces at each end and nothing else, and
    what is left neither starts nor ends with a space. *)
Lemma strip_spec (s : string) :
  exists pre post,
    s = pre ++ strip s ++ post /\ all_space pre /\ all_space post
    /\ (forall c, first_char (strip s) = Some c -> isspace c = false)
    /\ (forall c, last_char (strip s) = Some c -> isspace c = false).
Proof.
  unfold strip.
  destruct (lstrip_spec s) as (pre & E1 & E2 & E3).
  destruct (rstrip_spec (lstrip s)) as (post & F1 & F2 & F3).
  exists pre, post. repeat split; try assumption.
  - rewrite <- F1. exact E1.
  - intros c Hc. apply E3. rewrite <- Hc. symmetry. apply rstrip_first.
    intros E. rewrite E in Hc. discriminate.
Qed.

Lemma no_space_snoc (cur : string) (c : ascii) :
  no_space cur -> isspace c = false -> no_space (cur ++ String c EmptyString).
Proof.
  unfold no_space. intros Hc Hs. rewrite list_ascii_app.
  apply Forall_app. split; [assumption|]. simpl. repeat constructor. assumption.
Qed.

Lemma split_from_words (s cur : string) :
  no_space cur ->
  Forall (fun a => a <> EmptyString /\ no_space a) (split_from cur s).
Proof.
  revert cur. induction s as [|c s IH]; intros cur Hcur; simpl.
  - destruct cur; simpl; [constructor|].
    constructor; [split; [discriminate | assumption] | constructor].
  - destruct (isspace c) eqn:Ec.
    + destruct cur as [|d cur]; simpl.
      * apply IH. constructor.
      * constructor; [split; [discriminate | assumption] |].
        apply IH. constructor.
    + apply IH. now apply no_space_snoc.
Qed.

(** No element of [s.split()] is empty or holds a space. *)
Lemma split_words (s : string) :
  Forall (fun a => a <> EmptyString /\ no_space a) (split s).
Proof. apply split_from_words. constructor. Qed.

Lemma split_from_concat (s cur : string) :
  String.concat EmptyString (split_from cur s) = cur ++ without_spaces s.
Proof.
  revert cur. induction s as [|c s IH]; intros cur; simpl.
  - destruct cur; simpl; [reflexivity|]. now rewrite append_nil_r.
  - destruct (isspace c).
    + destruct cur as [|d cur]; simpl.
      * apply IH.
      * specialize (IH EmptyString). simpl in IH.
        destruct (split_from EmptyString s) eqn:E.
        -- simpl in *. rewrite <- IH. now rewrite append_nil_r.
        -- rewrite <- IH. reflexivity.
    + rewrite IH, append_assoc. reflexivity.
Qed.

Lemma no_space_has_space (s : string) : no_space s -> has_space s = false.
Proof.
  unfold no_space, has_space. induction 1 as [|c l Hc _ IH]; [reflexivity|].
  cbn. now rewrite Hc, IH.
Qed.

(** Splitting loses the spaces and nothing else. *)
Lemma split_concat (s : string) :
  String.concat EmptyString (split s) = without_spaces s.
Proof. apply split_from_concat. Qed.

Lemma split_from_spaces (pre rest : string) :
  all_space pre -> split_from EmptyString (pre ++ rest) = split_from EmptyString rest.
Proof.
  unfold all_space. induction pre as [|c pre IH]; cbn; [reflexivity|].
  intros Hp. inversion Hp as [|c' l Hc Hl]; subst. rewrite Hc. exact (IH Hl).
Qed.

Lemma split_from_run (a cur rest : string) :
  no_space a -> split_from cur (a ++ rest) = split_from (cur ++ a) rest.
Proof.
  revert cur. induction a as [|c a IH]; intros cur Ha; cbn.
  - now rewrite append_nil_r.
  - inversion Ha as [|c' l Hc Hl]; subst. rewrite Hc.
    rewrite (IH _ Hl), append_assoc. reflexivity.
Qed.

Lemma split_from_boundary (w rest : string) :
  w <> EmptyString -> boundary rest ->
  split_from w rest = w :: split_from EmptyString rest.
Proof.
  intros Hw Hb. apply truthy_true in Hw.
  destruct rest as [|c rest]; cbn in *.
  - now rewrite Hw.
  - now rewrite Hb, Hw.
Qed.

Lemma words_of_space (c : ascii) (s : string) (ws : list string) :
  isspace c = true -> words_of s ws -> words_of (String c s) ws.
Proof.
  intros Hc Hw. destruct Hw as [s Hs|pre w rest ws Hp Hne Hns Hb Hw].
  - constructor. constructor; assumption.
  - change (String c (pre ++ w ++ rest)) with (String c pre ++ w ++ rest).
    constructor; try assumption. constructor; assumption.
Qed.

Lemma words_of_split_from (s cur : string) :
  no_space cur -> words_of (cur ++ s) (split_from cur s).
Proof.
  revert cur. induction s as [|c s IH]; intros cur Hcur.
  - cbn [split_from]. destruct cur as [|d cur]; cbn [truthy].
    + constructor. constructor.
    + apply (words_more EmptyString (String d cur) EmptyString []);
        [constructor | discriminate | assumption | exact I |].
      constructor. constructor.
  - cbn [split_from]. destruct (isspace c) eqn:Hc.
    + pose proof (words_of_space c s _ Hc (IH EmptyString ltac:(constructor))) as Hrest.
      destruct cur as [|d cur]; cbn [truthy].
      * exact Hrest.
      * apply (words_more EmptyString (String d cur) (String c s));
          [constructor | discriminate | assumption | exact Hc | exact Hrest].
    + specialize (IH (cur ++ String c EmptyString) (no_space_snoc cur c Hcur Hc)).
      rewrite append_assoc in IH. exact IH.
Qed.

Lemma split_all_space (s : string) : all_space s -> split s = [].
Proof.
  intros Hs. unfold split.
  rewrite <- (append_nil_r s), (split_from_spaces s EmptyString Hs). reflexivity.
Qed.

(** [split] is the one way to read a line as words. *)
Lemma words_of_iff_split (s : string) (ws : list string) :
  words_of s ws <-> ws = split s.
Proof.
  split.
  - induction 1 as [s Hs|pre w rest ws Hp Hne Hns Hb Hw IH].
    + symmetry. now apply split_all_space.
    + unfold split. rewrite (split_from_spaces pre _ Hp).
      rewrite (split_from_run w EmptyString rest Hns). cbn [append].
      rewrite (split_from_boundary w rest Hne Hb). f_equal. exact IH.
  - intros ->. apply (words_of_split_from s EmptyString). constructor.
Qed.

End PyStrFacts.

Example lower_Windows : PyStr.lower "Windows" = "windows".
Proof. reflexivity. Qed.

Example strip_ex : PyStr.strip ("  a b " ++ PyStr.NL) = "a b".
Proof. reflexivity. Qed.

Example split_ex : PyStr.split " git  clone x " = ["git"; "clone"; "x"].
Proof. reflexivity. Qed.

Example of_int_ex : PyStr.of_int (-9) = "-9" /\ PyStr.of_int 128 = "128".
Proof. split; reflexivity. Qed.

(** ** Runs of the script's functions *)

Section Runs.

Context {W Path : Type}.
Variable H : @Host W Path.

Lemma get_triplet_run (w : W) :
  get_triplet H w
  = mkOut (Return (triplet_of (system H) (machine H))) w [EvCall CallGetTriplet].
Proof. reflexivity. Qed.

Lemma triplet_of_other (sys mach : string) :
  sys <> "windows" -> sys <> "darwin" -> triplet_of sys mach = "x64-linux".
Proof.
  intros Hw Hd. unfold triplet_of.
  apply String.eqb_neq in Hw, Hd. now rewrite Hw, Hd.
Qed.

Lemma check_tool_run (tool : string) (w : W) :
  check_tool H tool w = mkOut (Return (found H w tool)) w [EvCall (CallCheckTool tool)].
Proof. reflexivity. Qed.

Lemma collect_missing_run (required missing : list string) (w : W) :
  collect_missing H required missing w
  = mkOut (Return (missing ++ filter (fun t => negb (found H w t)) required)%list)
          w (map (fun t => EvCall (CallCheckTool t)) required).
Proof.
  revert missing. induction required as [|tool rest IH]; intros missing.
  - cbn [collect_missing filter map]. rewrite app_nil_r. reflexivity.
  - cbn [collect_missing filter map]. unfold bind.
    rewrite check_tool_run, IH.
    destruct (found H w tool); cbn [negb app].
    + reflexivity.
    + rewrite <- app_assoc. reflexivity.
Qed.

(** [check_dependencies] reads the world and prints; it never raises and
    leaves the world as it is. *)
Lemma check_dependencies_run (w : W) :
  check_dependencies H w
  = mkOut (Return (match missing_tools H w with [] => true | _ :: _ => false end))
          w (check_trace H w).
Proof.
  unfold check_dependencies, check_trace, bind, enter, emit.
  rewrite collect_missing_run. cbn [app].
  fold (missing_tools H w).
  destruct (missing_tools H w) as [|m ms]; cbn.
  - rewrite app_nil_r. reflexivity.
  - reflexivity.
Qed.

(** [run_command], case by case on what the child process does. *)
Lemma run_command_run (cmd : command) (cwd : option Path) (env : option Dict.t)
    (capture : bool) (w : W) :
  run_command H cmd cwd env capture w
  = let started := (run_prologue cmd cwd env capture
                    ++ [spawn_event H w cmd cwd env capture])%list in
    match spawn H w (argv_of cmd) cwd (merged_env_of H w env) capture with
    | (Exited code out err, w') =>
        if (code =? 0)%Z
        then mkOut (Return (if capture then Some (PyStr.strip out) else None)) w' started
        else mkOut (Raise (CalledProcessError code (argv_of cmd)
                             (if capture then Some out else None)
                             (if capture then Some err else None)))
                   w' (started ++ failure_report capture code err)%list
    | (SpawnFailed name msg, w') => mkOut (Raise (HostError name msg)) w' started
    end.
Proof.
  unfold run_command, try_called_process_error, bind, subprocess_run_check,
    print, enter, emit, ask, ret, raise, spawn_event, failure_report, run_prologue.
  cbn -[append PyStr.split PyStr.strip PyStr.of_int Dict.update].
  fold (argv_of cmd). fold (merged_env_of H w env).
  destruct capture;
    destruct (spawn H w (argv_of cmd) cwd (merged_env_of H w env) _)
      as [[code out err|name msg] w'];
    try reflexivity;
    destruct (code =? 0)%Z; try reflexivity.
  destruct err; reflexivity.
Qed.

(** [setup_vcpkg] logs its own call first, whatever happens next. *)
Lemma setup_vcpkg_starts (root : Path) (verbose : bool) (w : W) :
  exists r w1 rest,
    setup_vcpkg H root verbose w = mkOut r w1 (EvCall (CallSetupVcpkg root verbose) :: rest).
Proof.
  unfold setup_vcpkg. unfold bind at 1. unfold enter, emit.
  match goal with |- context [match ?m w with _ => _ end] => destruct (m w) as [r w1 t1] end.
  exists r, w1, t1. reflexivity.
Qed.

(** Unfold [main] up to its call of [check_dependencies] and run that. *)
Ltac run_main :=
  unfold main, bind, get_platform, get_triplet, print, enter, emit, ask, ret;
  cbn -[append];
  rewrite check_dependencies_run.

(** With a required tool missing, [main] stops after the check. *)
Lemma main_run_missing (args : Args) (w : W) :
  missing_tools H w <> [] ->
  main H args w = mkOut (Return 1%Z) w (main_header H w ++ check_trace H w)%list.
Proof.
  intros Hm. run_main.
  destruct (missing_tools H w) as [|m ms] eqn:E; [congruence|].
  cbn -[append]. rewrite app_nil_r. reflexivity.
Qed.

(** With every tool present and [--check], [main] stops after the check. *)
Lemma main_run_check (args : Args) (w : W) :
  missing_tools H w = [] ->
  arg_check args = true ->
  main H args w
  = mkOut (Return 0%Z) w
          (main_header H w ++ check_trace H w
           ++ [EvPrint "All required tools are available."])%list.
Proof.
  intros Hm Hc. run_main. rewrite Hm, Hc. reflexivity.
Qed.

(** With every tool present, no [--check] and a root given that does not
    exist, [main] stops at the root test. *)
Lemma main_run_bad_root (args : Args) (w : W) (root : string) :
  missing_tools H w = [] ->
  arg_check args = false ->
  arg_vcpkg_root args = Some root ->
  root <> EmptyString ->
  path_exists H w (path_of H root) = false ->
  main H args w
  = mkOut (Return 1%Z) w
          (main_header H w ++ check_trace H w ++ triplet_trace H args
           ++ [EvPrint ("Error: Specified vcpkg root does not exist: "
                        ++ path_str H (path_of H root))])%list.
Proof.
  intros Hm Hc Hr Hne Hex.
  destruct root as [|c root]; [congruence|].
  run_main. rewrite Hm, Hc, Hr. unfold triplet_trace, triplet_used.
  destruct (arg_triplet args) as [[|d t]|];
    cbn -[append check_trace]; rewrite Hex; reflexivity.
Qed.

(** With every tool present, no [--check] and no usable root, [main]
    settles on a triplet and enters [setup_vcpkg]. *)
Lemma main_run_setup (args : Args) (w : W) :
  missing_tools H w = [] ->
  arg_check args = false ->
  optstr_truthy (arg_vcpkg_root args) = false ->
  exists rest,
    trace (main H args w)
    = (main_header H w ++ check_trace H w ++ triplet_trace H args
       ++ EvCall (CallSetupVcpkg (project_root_of H w) (arg_verbose args)) :: rest)%list.
Proof.
  intros Hm Hc Hr. run_main. rewrite Hm, Hc, Hr.
  unfold triplet_trace, triplet_used.
  destruct (setup_vcpkg_starts (project_root_of H w) (arg_verbose args) w)
    as (r & w1 & rest & Hs).
  unfold project_root_of in Hs.
  destruct (arg_triplet args) as [[|c t]|]; cbn -[append check_trace];
    rewrite Hs;
    (destruct r as [dir|e];
     [ destruct (install_dependencies H dir _ _ (arg_verbose args) w1)
         as [[[]|e] w2 t2]; eexists; reflexivity
     | eexists; reflexivity ]).
Qed.

End Runs.

Section Quiet.

Context {W Path : Type}.
Variable H : @Host W Path.

Lemma no_action_app (t1 t2 : list (@event Path)) :
  no_action t1 -> no_action t2 -> no_action (t1 ++ t2).
Proof. unfold no_action. intros H1 H2. now rewrite forallb_app, H1, H2. Qed.

Lemma no_action_header (w : W) : no_action (main_header H w).
Proof. reflexivity. Qed.

Lemma no_action_check_tools (l : list string) :
  no_action (map (fun t => @EvCall Path (CallCheckTool t)) l).
Proof. induction l; [reflexivity | exact IHl]. Qed.

Lemma no_action_check (w : W) : no_action (check_trace H w).
Proof.
  unfold check_trace. change (EvCall CallCheckDependencies :: ?l)%list
    with ([@EvCall Path CallCheckDependencies] ++ l)%list.
  apply no_action_app; [reflexivity|].
  apply no_action_app; [apply no_action_check_tools|].
  destruct (missing_tools H w); reflexivity.
Qed.

Lemma no_action_triplet (args : Args) : no_action (triplet_trace H args).
Proof. unfold triplet_trace. destruct (optstr_truthy (arg_triplet args)); reflexivity. Qed.

(** A required tool that [shutil.which] does not find is reported missing. *)
Lemma missing_tools_In (w : W) (tool : string) :
  In tool (required_tools (system H)) ->
  shutil_which H w tool = None ->
  missing_tools H w <> [].
Proof.
  intros Hin Hw Hm.
  assert (Hf : In tool (missing_tools H w)).
  { unfold missing_tools. apply filter_In. split; [assumption|].
    unfold found. now rewrite Hw. }
  rewrite Hm in Hf. contradiction.
Qed.

(** If [shutil.which] finds every required tool, none is reported. *)
Lemma missing_tools_nil (w : W) :
  (forall tool, In tool (required_tools (system H)) -> shutil_which H w tool <> None) ->
  missing_tools H w = [].
Proof.
  intros Hall. unfold missing_tools.
  induction (required_tools (system H)) as [|t l IH]; [reflexivity|].
  cbn [filter]. unfold found at 1.
  destruct (shutil_which H w t) eqn:E.
  - cbn. apply IH. intros tool Hin. apply Hall. now right.
  - exfalso. apply (Hall t); [now left | assumption].
Qed.

End Quiet.

(** ** A small logic of logged events *)

Section Logs.

Context {W Path : Type}.
Variable H : @Host W Path.
Variable ok : @event Path -> bool.

Lemma logs_ret {A} (a : A) (Q : A -> Prop) : Q a -> logs_only (W:=W) ok (ret a) Q.
Proof. intros HQ w. split; [reflexivity|]. cbn. intros a' [= <-]. exact HQ. Qed.

Lemma logs_ret_any {A} (a : A) : logs_only (W:=W) ok (ret a) (fun _ => True).
Proof. now apply logs_ret. Qed.

Lemma logs_raise {A} (e : exn) (Q : A -> Prop) : logs_only (W:=W) ok (raise e) Q.
Proof. intros w. split; [reflexivity|]. cbn. discriminate. Qed.

Lemma logs_ask {A} (f : W -> A) : logs_only ok (ask f) (fun _ => True).
Proof. intros w. split; [reflexivity | trivial]. Qed.

Lemma logs_emit (e : @event Path) : ok e = true -> logs_only (W:=W) ok (emit e) (fun _ => True).
Proof. intros He w. split; [cbn; now rewrite He | trivial]. Qed.

Lemma logs_bind {A B} (m : @M W Path A) (f : A -> @M W Path B) (Q : A -> Prop) (R : B -> Prop) :
  logs_only ok m Q ->
  (forall a, Q a -> logs_only ok (f a) R) ->
  logs_only ok (bind m f) R.
Proof.
  intros Hm Hf w. unfold bind.
  destruct (Hm w) as [Ht Hr]. destruct (m w) as [[a|e] w1 t1]; cbn in *.
  - destruct (Hf a (Hr a eq_refl) w1) as [Ht' Hr'].
    destruct (f a w1) as [r w2 t2]; cbn in *.
    split; [rewrite forallb_app, Ht, Ht'; reflexivity | exact Hr'].
  - split; [exact Ht | discriminate].
Qed.

Lemma logs_try {A} (m : @M W Path A) h (Q : A -> Prop) :
  logs_only ok m Q ->
  (forall rc cmd out err, logs_only ok (h rc cmd out err) Q) ->
  logs_only ok (try_called_process_error m h) Q.
Proof.
  intros Hm Hh w. unfold try_called_process_error.
  destruct (Hm w) as [Ht Hr].
  destruct (m w) as [[a|[rc cmd out err|msg|name msg|status]] w1 t1]; cbn in *;
    try (split; assumption).
  destruct (Hh rc cmd out err w1) as [Ht' Hr'].
  destruct (h rc cmd out err w1) as [r w2 t2]; cbn in *.
  split; [rewrite forallb_app, Ht, Ht'; reflexivity | exact Hr'].
Qed.

Hypothesis ok_io : accepts_io ok.

Lemma logs_print (l : string) : logs_only (W:=W) ok (print l) (fun _ => True).
Proof. apply logs_emit, ok_io. Qed.

Lemma logs_subprocess argv cwd env cap :
  logs_only ok (subprocess_run_check H argv cwd env cap) (fun _ => True).
Proof.
  intros w. unfold subprocess_run_check.
  destruct (spawn H w argv cwd env cap) as [[code out err|name msg] w'].
  - destruct (code =? 0)%Z; cbn; (split; [|trivial]);
      now rewrite (proj1 (proj2 ok_io)).
  - cbn. split; [|trivial]. now rewrite (proj1 (proj2 ok_io)).
Qed.

(** One rule of the logic, chosen by the shape of the computation. *)
Ltac logs_step :=
  lazymatch goal with
  | |- logs_only _ (bind _ _) _ => eapply logs_bind; [|intros ? ?]
  | |- logs_only _ (if ?b then _ else _) _ => destruct b
  | |- logs_only _ (let _ := _ in _) _ => cbv zeta
  | |- logs_only _ (ret _) _ => first [apply logs_ret_any | apply logs_ret; try exact I]
  | |- logs_only _ (raise _) _ => apply logs_raise
  | |- logs_only _ (ask _) _ => apply logs_ask
  | |- logs_only _ (print _) _ => apply logs_print
  | |- logs_only _ (try_called_process_error _ _) _ => apply logs_try; [|intros ? ? ? ?]
  | |- logs_only _ (subprocess_run_check _ _ _ _ _) _ => apply logs_subprocess
  end.

Lemma logs_enter_io (c : @call Path) :
  ok (EvCall c) = true -> logs_only (W:=W) ok (enter c) (fun _ => True).
Proof. intros Hc. now apply logs_emit. Qed.

Lemma logs_run_command cmd cwd env cap :
  logs_only ok (run_command H cmd cwd env cap) (fun _ => True).
Proof.
  unfold run_command.
  eapply logs_bind; [apply logs_enter_io, ok_io | intros ? ?].
  repeat logs_step.
Qed.

Lemma logs_check_tool tool : logs_only ok (check_tool H tool) (fun _ => True).
Proof.
  unfold check_tool.
  eapply logs_bind; [apply logs_enter_io, ok_io | intros ? ?].
  repeat logs_step.
Qed.

Lemma logs_collect_missing required missing :
  logs_only ok (collect_missing H required missing) (fun _ => True).
Proof.
  revert missing. induction required as [|tool rest IH]; intros missing; cbn.
  - apply logs_ret_any.
  - eapply logs_bind; [apply logs_check_tool | intros ? ?]. apply IH.
Qed.

Lemma logs_check_dependencies :
  logs_only ok (check_dependencies H) (fun _ => True).
Proof.
  unfold check_dependencies.
  eapply logs_bind; [apply logs_enter_io, ok_io | intros ? ?].
  cbv zeta.
  eapply logs_bind; [apply logs_collect_missing | intros missing ?].
  destruct missing; repeat logs_step.
Qed.

Lemma logs_setup_vcpkg root verbose :
  logs_only ok (setup_vcpkg H root verbose) (fun _ => True).
Proof.
  unfold setup_vcpkg.
  eapply logs_bind; [apply logs_enter_io, ok_io | intros ? ?].
  repeat first [apply logs_run_command | logs_step].
Qed.

Lemma logs_install_dependencies dir root triplet verbose :
  ok (EvCall (CallInstallDependencies dir root triplet verbose)) = true ->
  logs_only ok (install_dependencies H dir root triplet verbose) (fun _ => True).
Proof.
  intros Hc. unfold install_dependencies.
  eapply logs_bind; [apply logs_enter_io, Hc | intros ? ?].
  repeat first [apply logs_run_command | logs_step].
Qed.

(** Every event of a run of [main] is accepted, as soon as the call of
    [get_triplet] is (when no override is in force) and the call of
    [install_dependencies] with the triplet settled on is. *)
Lemma logs_main (args : Args) :
  (optstr_truthy (arg_triplet args) = false -> ok (EvCall CallGetTriplet) = true) ->
  (forall dir root v,
      ok (EvCall (CallInstallDependencies dir root (triplet_used H args) v)) = true) ->
  logs_only ok (main H args) (fun _ => True).
Proof.
  intros Hg Hi. unfold main.
  eapply logs_bind; [apply logs_ask | intros script_dir _]. cbv zeta.
  eapply logs_bind; [apply logs_print | intros _ _].
  eapply logs_bind.
  { unfold get_platform.
    eapply logs_bind; [apply logs_enter_io, ok_io | intros ? ?].
    apply logs_ret_any. }
  intros plat _.
  eapply logs_bind; [apply logs_print | intros _ _].
  eapply logs_bind; [apply logs_check_dependencies | intros okd _].
  destruct (negb okd); [apply logs_ret_any|].
  destruct (arg_check args); [repeat logs_step|].
  eapply logs_bind with (Q := fun t => t = triplet_used H args).
  { unfold triplet_used.
    destruct (arg_triplet args) as [[|c t]|]; cbn [optstr_truthy PyStr.truthy] in *.
    - unfold get_triplet.
      eapply logs_bind; [apply logs_enter_io, Hg; reflexivity | intros ? ?].
      now apply logs_ret.
    - now apply logs_ret.
    - unfold get_triplet.
      eapply logs_bind; [apply logs_enter_io, Hg; reflexivity | intros ? ?].
      now apply logs_ret. }
  intros triplet ->.
  repeat first [apply logs_install_dependencies, Hi
               | apply logs_setup_vcpkg
               | logs_step].
Qed.

End Logs.

(** ** The claims *)

(** C1. [get_triplet] returns the documented string for each combination
    of operating system and machine: x64-mingw-static on windows,
    arm64-osx on darwin with an arm64 machine, x64-osx on darwin with any
    other machine, and x64-linux on every other system.  It cannot raise
    and leaves the world untouched. *)
Theorem get_triplet_table {W Path : Type} (H : @Host W Path) (w : W) :
  (system H = "windows" -> res (get_triplet H w) = Return "x64-mingw-static")
  /\ (system H = "darwin" -> machine H = "arm64" ->
      res (get_triplet H w) = Return "arm64-osx")
  /\ (system H = "darwin" -> machine H <> "arm64" ->
      res (get_triplet H w) = Return "x64-osx")
  /\ (system H <> "windows" -> system H <> "darwin" ->
      res (get_triplet H w) = Return "x64-linux")
  /\ world (get_triplet H w) = w.
Proof.
  rewrite get_triplet_run. cbn [res world].
  repeat split.
  - intros ->. reflexivity.
  - intros -> ->. reflexivity.
  - intros -> Hm. unfold triplet_of. apply String.eqb_neq in Hm. now rewrite Hm.
  - intros Hw Hd. now rewrite triplet_of_other.
Qed.

Lemma get_triplet_table_witness :
  res (get_triplet Sim.windows Sim.fresh) = Return "x64-mingw-static"
  /\ res (get_triplet Sim.mac_arm Sim.fresh) = Return "arm64-osx"
  /\ res (get_triplet Sim.mac_intel Sim.fresh) = Return "x64-osx"
  /\ res (get_triplet Sim.linux Sim.fresh) = Return "x64-linux".
Proof.
  split; [|split; [|split]].
  - apply (proj1 (get_triplet_table Sim.windows Sim.fresh)). reflexivity.
  - apply (proj1 (proj2 (get_triplet_table Sim.mac_arm Sim.fresh))); reflexivity.
  - apply (proj1 (proj2 (proj2 (get_triplet_table Sim.mac_intel Sim.fresh)))).
    + reflexivity.
    + discriminate.
  - apply (proj1 (proj2 (proj2 (proj2 (get_triplet_table Sim.linux Sim.fresh)))));
      discriminate.
Defined.

(** C3. When a required tool is not on the search path,
    [check_dependencies] returns [False] without raising, [main] returns
    1, and neither the install step nor any command is entered. *)
Theorem missing_tool_stops_main {W Path : Type} (H : @Host W Path)
    (args : Args) (w : W) (tool : string) :
  In tool (required_tools (system H)) ->
  shutil_which H w tool = None ->
  res (check_dependencies H w) = Return false
  /\ res (main H args w) = Return 1%Z
  /\ world (main H args w) = w
  /\ no_action (trace (main H args w)).
Proof.
  intros Hin Hw. pose proof (missing_tools_In H w tool Hin Hw) as Hm.
  rewrite check_dependencies_run, (main_run_missing H args w Hm). cbn [res world trace].
  repeat split.
  - destruct (missing_tools H w); [congruence | reflexivity].
  - apply no_action_app; [apply no_action_header | apply no_action_check].
Qed.

Lemma missing_tool_stops_main_witness :
  res (check_dependencies Sim.freebsd Sim.fresh) = Return false
  /\ res (main Sim.freebsd (mkArgs false false None None) Sim.fresh) = Return 1%Z
  /\ world (main Sim.freebsd (mkArgs false false None None) Sim.fresh) = Sim.fresh
  /\ no_action (trace (main Sim.freebsd (mkArgs false false None None) Sim.fresh)).
Proof.
  apply (missing_tool_stops_main Sim.freebsd (mkArgs false false None None)
           Sim.fresh "ninja").
  - vm_compute. tauto.
  - reflexivity.
Defined.

(** C4. With [--check] and every required tool present, [main] returns 0,
    leaves the world as it found it and takes no action: no command is
    run, and the bootstrap and install steps are not entered. *)
Theorem check_only_is_read_only {W Path : Type} (H : @Host W Path)
    (args : Args) (w : W) :
  arg_check args = true ->
  (forall tool, In tool (required_tools (system H)) -> shutil_which H w tool <> None) ->
  res (main H args w) = Return 0%Z
  /\ world (main H args w) = w
  /\ no_action (trace (main H args w)).
Proof.
  intros Hc Hall. pose proof (missing_tools_nil H w Hall) as Hm.
  rewrite (main_run_check H args w Hm Hc). cbn [res world trace].
  repeat split.
  apply no_action_app; [apply no_action_header|].
  apply no_action_app; [apply no_action_check | reflexivity].
Qed.

Lemma check_only_is_read_only_witness :
  res (main Sim.linux (mkArgs true true (Some "x64-custom") (Some "/opt/vcpkg")) Sim.fresh)
  = Return 0%Z
  /\ world (main Sim.linux (mkArgs true true (Some "x64-custom") (Some "/opt/vcpkg")) Sim.fresh)
     = Sim.fresh
  /\ no_action (trace (main Sim.linux (mkArgs true true (Some "x64-custom")
                                              (Some "/opt/vcpkg")) Sim.fresh)).
Proof.
  apply check_only_is_read_only.
  - reflexivity.
  - intros tool Hin. vm_compute in Hin.
    repeat (destruct Hin as [<-|Hin]; [discriminate|]). contradiction.
Defined.

(** C5, as amended. Without [--check], when [--vcpkg-root] names a
    non-empty path that does not exist, [main] returns 1, leaves the world
    as it found it and takes no action: nothing is cloned, pulled,
    bootstrapped or installed. *)
Theorem nonexistent_root_is_fatal {W Path : Type} (H : @Host W Path)
    (args : Args) (w : W) (root : string) :
  arg_check args = false ->
  arg_vcpkg_root args = Some root ->
  root <> EmptyString ->
  path_exists H w (path_of H root) = false ->
  fails_before_any_command H args w.
Proof.
  intros Hc Hr Hne Hex. unfold fails_before_any_command.
  destruct (missing_tools H w) as [|m ms] eqn:Hm.
  - rewrite (main_run_bad_root H args w root Hm Hc Hr Hne Hex). cbn [res world trace].
    repeat split.
    apply no_action_app; [apply no_action_header|].
    apply no_action_app; [apply no_action_check|].
    apply no_action_app; [apply no_action_triplet | reflexivity].
  - rewrite (main_run_missing H args w) by congruence. cbn [res world trace].
    repeat split.
    apply no_action_app; [apply no_action_header | apply no_action_check].
Qed.

Lemma nonexistent_root_is_fatal_witness :
  fails_before_any_command Sim.linux (mkArgs false false None (Some "/opt/vcpkg")) Sim.fresh.
Proof.
  apply (nonexistent_root_is_fatal Sim.linux _ Sim.fresh "/opt/vcpkg").
  - reflexivity.
  - reflexivity.
  - discriminate.
  - reflexivity.
Defined.

(** C5, as stated, fails.  With [--check] and every tool present the run
    ends with status 0 although the root given does not exist; and an
    empty root is not looked at at all: the run clones and installs. *)
Lemma nonexistent_root_not_always_fatal :
  (arg_vcpkg_root (mkArgs false true None (Some "/opt/vcpkg")) = Some "/opt/vcpkg"
   /\ path_exists Sim.linux Sim.fresh (path_of Sim.linux "/opt/vcpkg") = false
   /\ res (main Sim.linux (mkArgs false true None (Some "/opt/vcpkg")) Sim.fresh)
      = Return 0%Z
   /\ ~ fails_before_any_command Sim.linux
          (mkArgs false true None (Some "/opt/vcpkg")) Sim.fresh)
  /\ (arg_vcpkg_root (mkArgs false false None (Some "")) = Some ""
      /\ path_exists Sim.linux ["/repo"] (path_of Sim.linux "") = false
      /\ res (main Sim.linux (mkArgs false false None (Some "")) ["/repo"]) = Return 0%Z
      /\ ~ fails_before_any_command Sim.linux
             (mkArgs false false None (Some "")) ["/repo"]).
Proof.
  repeat split; try reflexivity.
  - intros [Hres _]. vm_compute in Hres. discriminate.
  - intros [Hres _]. vm_compute in Hres. discriminate.
Qed.

(** C2, as amended. When [--triplet] carries a non-empty value, a run of
    [main] never calls [get_triplet], and every call of
    [install_dependencies] it makes passes exactly that value. *)
Theorem triplet_override_is_used {W Path : Type} (H : @Host W Path)
    (args : Args) (w : W) (t : string) :
  arg_triplet args = Some t ->
  t <> EmptyString ->
  override_respected H args w t.
Proof.
  intros Ha Hne. unfold override_respected.
  assert (Hu : triplet_used H args = t).
  { unfold triplet_used. rewrite Ha. destruct t; congruence. }
  apply (logs_main H (honours_override t)).
  - repeat split.
  - rewrite Ha. destruct t; [congruence | discriminate].
  - intros dir root v. rewrite Hu. cbn. apply String.eqb_refl.
Qed.

Lemma triplet_override_is_used_witness :
  override_respected Sim.linux (mkArgs false false (Some "x64-custom") None)
                     Sim.fresh "x64-custom".
Proof.
  apply triplet_override_is_used.
  - reflexivity.
  - discriminate.
Defined.

(** The run of the witness does reach the install step, with the override. *)
Example override_reaches_install :
  In (EvCall (CallInstallDependencies "/repo/vcpkg" "/repo" "x64-custom" false))
     (trace (main Sim.linux (mkArgs false false (Some "x64-custom") None) Sim.fresh))
  /\ In (EvSpawn ["/repo/vcpkg/vcpkg"; "install"; "--triplet=x64-custom";
                  "--x-manifest-root=/repo"; "--x-install-root=/repo/vcpkg_installed"]
                 (Some "/repo") [("PATH", "/usr/bin")] false)
        (trace (main Sim.linux (mkArgs false false (Some "x64-custom") None) Sim.fresh)).
Proof. split; vm_compute; tauto. Qed.

(** C2, as stated, fails.  The empty string is a value [--triplet] can
    carry; the run then calls [get_triplet] and installs for the platform's
    triplet, not for the value supplied. *)
Lemma empty_triplet_override_is_ignored :
  arg_triplet (mkArgs false false (Some "") None) = Some ""
  /\ ~ override_respected Sim.linux (mkArgs false false (Some "") None) Sim.fresh ""
  /\ In (EvCall CallGetTriplet)
        (trace (main Sim.linux (mkArgs false false (Some "") None) Sim.fresh))
  /\ In (EvCall (CallInstallDependencies "/repo/vcpkg" "/repo" "x64-linux" false))
        (trace (main Sim.linux (mkArgs false false (Some "") None) Sim.fresh)).
Proof.
  split; [reflexivity|]. split; [|split].
  - unfold override_respected. vm_compute. discriminate.
  - vm_compute. tauto.
  - vm_compute. tauto.
Qed.

(** C6. Suppose the child process [run_command] starts exits with [code].
    When capturing: on zero the result is the child's standard output with
    the spaces at both ends removed; otherwise the failure and the
    captured standard error (when there is any) are printed and
    [CalledProcessError] is raised.  When not capturing: [None] on zero,
    and the exception after the failure line otherwise. *)
Theorem run_command_outcome {W Path : Type} (H : @Host W Path)
    (cmd : command) (cwd : option Path) (env : option Dict.t) (capture : bool)
    (w w' : W) (code : Z) (out err : string) :
  spawn H w (argv_of cmd) cwd (merged_env_of H w env) capture = (Exited code out err, w') ->
  let o := run_command H cmd cwd env capture w in
  let started := (run_prologue cmd cwd env capture
                  ++ [spawn_event H w cmd cwd env capture])%list in
  world o = w'
  /\ (code = 0%Z ->
      res o = Return (if capture then Some (PyStr.strip out) else None)
      /\ trace o = started)
  /\ (code <> 0%Z ->
      res o = Raise (CalledProcessError code (argv_of cmd)
                       (if capture then Some out else None)
                       (if capture then Some err else None))
      /\ trace o
         = (started
            ++ EvPrint ("Command failed with exit code " ++ PyStr.of_int code)
            :: (if capture && PyStr.truthy err
                then [EvPrint ("Error: " ++ err)] else []))%list)
  /\ (exists pre post,
        out = pre ++ PyStr.strip out ++ post
        /\ PyStr.all_space pre /\ PyStr.all_space post
        /\ (forall c, PyStr.first_char (PyStr.strip out) = Some c -> PyStr.isspace c = false)
        /\ (forall c, PyStr.last_char (PyStr.strip out) = Some c -> PyStr.isspace c = false)).
Proof.
  intros Hs o started. subst o started.
  rewrite run_command_run, Hs. cbv zeta.
  split; [destruct (code =? 0)%Z; reflexivity|].
  split; [|split].
  - intros ->. split; reflexivity.
  - intros Hc. apply Z.eqb_neq in Hc. rewrite Hc. split; reflexivity.
  - apply PyStrFacts.strip_spec.
Qed.

(** C7. When the executable [install_dependencies] looks for (vcpkg.exe on
    windows, vcpkg elsewhere, inside the tool directory) does not exist,
    it raises [RuntimeError] with a message that ends in the missing path,
    having entered nothing and spawned nothing. *)
Theorem install_without_executable {W Path : Type} (H : @Host W Path)
    (vcpkg_dir project_root : Path) (triplet : string) (verbose : bool) (w : W) :
  path_exists H w (vcpkg_exe_of H vcpkg_dir) = false ->
  install_dependencies H vcpkg_dir project_root triplet verbose w
  = mkOut (Raise (RuntimeError ("vcpkg executable not found at "
                                ++ path_str H (vcpkg_exe_of H vcpkg_dir))))
          w [EvCall (CallInstallDependencies vcpkg_dir project_root triplet verbose)]
  /\ (system H = "windows" -> vcpkg_exe_of H vcpkg_dir = path_join H vcpkg_dir "vcpkg.exe")
  /\ (system H <> "windows" -> vcpkg_exe_of H vcpkg_dir = path_join H vcpkg_dir "vcpkg").
Proof.
  intros Hex. split; [|split].
  - unfold install_dependencies, bind, enter, emit, ask, raise.
    cbn -[append]. rewrite Hex. reflexivity.
  - unfold vcpkg_exe_of. intros ->. reflexivity.
  - unfold vcpkg_exe_of. intros Hn. apply String.eqb_neq in Hn. now rewrite Hn.
Qed.

Lemma install_without_executable_witness :
  install_dependencies Sim.windows "/opt/vcpkg" "/repo" "x64-mingw-static" false Sim.fresh
  = mkOut (Raise (RuntimeError "vcpkg executable not found at /opt/vcpkg/vcpkg.exe"))
          Sim.fresh
          [EvCall (CallInstallDependencies "/opt/vcpkg" "/repo" "x64-mingw-static" false)].
Proof.
  apply (proj1 (install_without_executable Sim.windows "/opt/vcpkg" "/repo"
                  "x64-mingw-static" false Sim.fresh eq_refl)).
Defined.

(** C8. A command given as one string is split at runs of spaces before
    it is run: the only process spawned gets [line.split()] as its
    argument vector, no argument of which is empty or holds a space; so no
    argument vector with a space inside an argument can be asked for by
    a string.  The vector is the words of the line and nothing else: the
    one list of non-empty, space-free strings that make up the line with
    only spaces before, between and after them. *)
Theorem string_command_is_split {W Path : Type} (H : @Host W Path)
    (line : string) (cwd : option Path) (env : option Dict.t) (capture : bool)
    (w : W) :
  filter is_spawn (trace (run_command H (CmdStr line) cwd env capture w))
  = [EvSpawn (PyStr.split line) cwd (merged_env_of H w env) capture]
  /\ Forall (fun a => a <> EmptyString /\ PyStr.no_space a) (PyStr.split line)
  /\ (forall argv, existsb PyStr.has_space argv = true -> PyStr.split line <> argv)
  /\ (forall ws, PyStr.words_of line ws <-> ws = PyStr.split line).
Proof.
  split; [|split; [|split]]; [| | |apply PyStrFacts.words_of_iff_split].
  - rewrite run_command_run. cbv zeta. unfold spawn_event. cbn [argv_of].
    destruct (spawn H w (PyStr.split line) cwd (merged_env_of H w env) capture)
      as [[code out err|name msg] w']; [destruct (code =? 0)%Z|]; cbn [trace];
      try reflexivity.
    unfold failure_report. destruct (capture && PyStr.truthy err); reflexivity.
  - apply PyStrFacts.split_words.
  - intros argv Hex <-.
    apply existsb_exists in Hex. destruct Hex as (a & Hin & Ha).
    pose proof (PyStrFacts.split_words line) as Hall.
    rewrite Forall_forall in Hall. destruct (Hall a Hin) as [_ Hns].
    rewrite (PyStrFacts.no_space_has_space a Hns) in Ha. discriminate.
Qed.

Lemma string_command_is_split_witness :
  PyStr.split "grep -e 'a b' notes.txt" <> ["grep"; "-e"; "a b"; "notes.txt"].
Proof.
  apply (proj1 (proj2 (proj2 (string_command_is_split Sim.linux
                                "grep -e 'a b' notes.txt"
                                None None false Sim.fresh)))).
  reflexivity.
Defined.

Example string_command_split_ex :
  filter is_spawn (trace (run_command Sim.linux (CmdStr "grep -e 'a b' notes.txt")
                                      None None false Sim.fresh))
  = [EvSpawn ["grep"; "-e"; "'a"; "b'"; "notes.txt"] None [("PATH", "/usr/bin")] false].
Proof. reflexivity. Qed.

Lemma run_command_outcome_witness :
  res (run_command (Sim.host "Linux" "x86_64" Sim.linux_tools
                             (fun _ => Exited 0 ("  2024.01.12 " ++ PyStr.NL) ""))
                   (CmdList ["vcpkg"; "version"]) None None true Sim.fresh)
  = Return (Some "2024.01.12").
Proof.
  apply (proj1 (proj2 (run_command_outcome
                         (Sim.host "Linux" "x86_64" Sim.linux_tools
                                   (fun _ => Exited 0 ("  2024.01.12 " ++ PyStr.NL) ""))
                         (CmdList ["vcpkg"; "version"]) None None true
                         Sim.fresh Sim.fresh 0%Z ("  2024.01.12 " ++ PyStr.NL) ""
                         eq_refl))).
  reflexivity.
Defined.

Example run_command_failure_ex :
  run_command (Sim.host "Linux" "x86_64" Sim.linux_tools
                        (fun _ => Exited 128 "" "fatal: not a git repository"))
              (CmdStr "git pull") None None true Sim.fresh
  = mkOut (Raise (CalledProcessError 128 ["git"; "pull"] (Some "")
                    (Some "fatal: not a git repository")))
          Sim.fresh
          [EvCall (CallRunCommand (CmdStr "git pull") None None true);
           EvPrint "Running: git pull";
           EvSpawn ["git"; "pull"] None [("PATH", "/usr/bin")] true;
           EvPrint "Command failed with exit code 128";
           EvPrint "Error: fatal: not a git repository"].
Proof. reflexivity. Qed.

(** C9. On a system that is neither windows nor darwin, whatever its name,
    [get_triplet] returns x64-linux and [check_dependencies] looks for git,
    cmake, ninja and gcc; and when such a system is not linux either and a
    tool is missing, the hint printed is the choco line, the one printed on
    windows. *)
Theorem other_systems_count_as_linux {W Path : Type} (H : @Host W Path) (w : W) :
  system H <> "windows" ->
  system H <> "darwin" ->
  res (get_triplet H w) = Return "x64-linux"
  /\ required_tools (system H) = ["git"; "cmake"; "ninja"; "gcc"]
  /\ res (check_dependencies H w)
     = Return (forallb (found H w) ["git"; "cmake"; "ninja"; "gcc"])
  /\ In (EvCall (CallCheckTool "gcc")) (trace (check_dependencies H w))
  /\ (system H <> "linux" ->
      res (check_dependencies H w) = Return false ->
      install_hint (system H) = install_hint "windows"
      /\ exists before,
           trace (check_dependencies H w)
           = (before ++ [EvPrint "  choco install cmake ninja git llvm"])%list).
Proof.
  intros Hw Hd.
  assert (Hreq : required_tools (system H) = ["git"; "cmake"; "ninja"; "gcc"]).
  { unfold required_tools. apply String.eqb_neq in Hw, Hd. now rewrite Hw, Hd. }
  split; [rewrite get_triplet_run; cbn [res]; now rewrite triplet_of_other|].
  split; [exact Hreq|].
  rewrite check_dependencies_run. cbn [res trace].
  unfold check_trace, missing_tools. rewrite Hreq.
  split; [|split].
  - cbn [filter forallb].
    destruct (found H w "git"), (found H w "cmake"), (found H w "ninja"),
      (found H w "gcc"); reflexivity.
  - cbn [map]. right. right. right. right. left. reflexivity.
  - intros Hl Hfalse.
    assert (Hhint : install_hint (system H) = "  choco install cmake ninja git llvm").
    { unfold install_hint. apply String.eqb_neq in Hl, Hd. now rewrite Hl, Hd. }
    split; [rewrite Hhint; reflexivity|].
    rewrite Hhint.
    destruct (filter (fun t => negb (found H w t)) ["git"; "cmake"; "ninja"; "gcc"])
      as [|m ms]; [discriminate|].
    cbn [app map].
    eexists [_; _; _; _; _; _; _]. reflexivity.
Qed.

Lemma other_systems_count_as_linux_witness :
  res (get_triplet Sim.freebsd Sim.fresh) = Return "x64-linux"
  /\ required_tools (system Sim.freebsd) = ["git"; "cmake"; "ninja"; "gcc"]
  /\ exists before,
       trace (check_dependencies Sim.freebsd Sim.fresh)
       = (before ++ [EvPrint "  choco install cmake ninja git llvm"])%list.
Proof.
  pose (T := other_systems_count_as_linux Sim.freebsd Sim.fresh
               ltac:(discriminate) ltac:(discriminate)).
  split; [exact (proj1 T)|]. split; [exact (proj1 (proj2 T))|].
  apply (proj2 (proj2 (proj2 (proj2 T)))).
  - discriminate.
  - reflexivity.
Defined.

(** C10. An empty string given to [--triplet], or to [--vcpkg-root], makes
    [main] behave exactly as when the flag is left out.  When the run gets
    past the tool check, [get_triplet] is called, its value is the triplet
    used, and [setup_vcpkg] (clone or pull, then bootstrap) is entered. *)
Theorem empty_flag_is_absent_flag {W Path : Type} (H : @Host W Path)
    (verbose check : bool) (triplet root : option string) (w : W) :
  main H (mkArgs verbose check (Some "") root) w
  = main H (mkArgs verbose check None root) w
  /\ main H (mkArgs verbose check triplet (Some "")) w
     = main H (mkArgs verbose check triplet None) w
  /\ (check = false ->
      missing_tools H w = [] ->
      exists rest,
        trace (main H (mkArgs verbose check (Some "") (Some "")) w)
        = (main_header H w ++ check_trace H w
           ++ [EvCall CallGetTriplet;
               EvPrint ("Using triplet: " ++ triplet_of (system H) (machine H));
               EvCall (CallSetupVcpkg (project_root_of H w) verbose)]
           ++ rest)%list).
Proof.
  split; [reflexivity|]. split; [reflexivity|].
  intros -> Hm.
  destruct (main_run_setup H (mkArgs verbose false (Some "") (Some "")) w Hm
              eq_refl eq_refl) as [rest Ht].
  exists rest. exact Ht.
Qed.

Lemma empty_flag_is_absent_flag_witness :
  exists rest,
    trace (main Sim.linux (mkArgs false false (Some "") (Some "")) Sim.fresh)
    = (main_header Sim.linux Sim.fresh ++ check_trace Sim.linux Sim.fresh
       ++ [EvCall CallGetTriplet;
           EvPrint "Using triplet: x64-linux";
           EvCall (CallSetupVcpkg "/repo" false)]
       ++ rest)%list.
Proof.
  apply (proj2 (proj2 (empty_flag_is_absent_flag Sim.linux false false None None
                         Sim.fresh))).
  - reflexivity.
  - reflexivity.
Defined.

(** ** The bootstrap and install steps, and the runs of [main] through them *)

Section Steps.

Context {W Path : Type}.
Variable H : @Host W Path.

(** Case analysis on the outcome of the next [run_command] in the goal. *)
Ltac destruct_run :=
  match goal with
  | |- context [run_command ?h ?c ?d ?e ?b ?ww] =>
      destruct (run_command h c d e b ww) as [[?|?] ? ?]
  end.

(** [setup_vcpkg] is the fetch command followed, if that returns, by the
    bootstrap command; what either raises is what [setup_vcpkg] raises. *)
Lemma setup_vcpkg_run (root : Path) (verbose : bool) (w : W) :
  setup_vcpkg H root verbose w
  = let o1 := run_command H (fetch_command H root w) (fetch_cwd H root w) None false w in
    let pre := [EvCall (CallSetupVcpkg root verbose); EvPrint (fetch_banner H root w)] in
    match res o1 with
    | Raise e => mkOut (Raise e) (world o1) (pre ++ trace o1)%list
    | Return _ =>
        let o2 := run_command H (bootstrap_command H root)
                              (Some (vcpkg_dir_of H root)) None false (world o1) in
        mkOut (match res o2 with
               | Return _ => Return (vcpkg_dir_of H root)
               | Raise e => Raise e
               end)
              (world o2) (pre ++ trace o1 ++ trace o2)%list
    end.
Proof.
  unfold setup_vcpkg, fetch_command, fetch_cwd, fetch_banner, bootstrap_command,
    vcpkg_dir_of, bind, print, enter, emit, ask, ret.
  cbn -[append String.eqb].
  destruct (path_exists H w (path_join H root "vcpkg"));
    cbn -[append String.eqb];
    destruct_run; cbn -[append String.eqb]; try reflexivity;
    destruct (system H =? "windows");
    destruct_run; cbn -[append String.eqb]; rewrite ?app_nil_r; reflexivity.
Qed.

(** [install_dependencies], once the executable is there, is the install
    command; what that raises is what [install_dependencies] raises. *)
Lemma install_dependencies_run (dir root : Path) (triplet : string)
    (verbose : bool) (w : W) :
  path_exists H w (vcpkg_exe_of H dir) = true ->
  install_dependencies H dir root triplet verbose w
  = let o := run_command H (CmdList (install_argv H dir root triplet verbose))
                         (Some root) None false w in
    mkOut (match res o with Return _ => Return tt | Raise e => Raise e end)
          (world o)
          (EvCall (CallInstallDependencies dir root triplet verbose)
           :: EvPrint ("Installing dependencies for triplet: " ++ triplet)
           :: trace o).
Proof.
  intros Hex.
  unfold install_dependencies, install_argv, bind, print, enter, emit, ask, ret.
  cbn -[append]. rewrite Hex. cbn -[append].
  destruct verbose; destruct_run; cbn -[append]; rewrite ?app_nil_r; reflexivity.
Qed.

(** Case analysis on the outcome of a step of [main]. *)
Ltac destruct_step f :=
  match goal with
  | |- context [f ?h ?a ?b ?c ?d ?ww] =>
      destruct (f h a b c d ww) as [[?|?] ? ?]
  | |- context [f ?h ?a ?b ?ww] =>
      destruct (f h a b ww) as [[?|?] ? ?]
  end.

(** Past the tool check with a root that exists, [main] is the install
    step and, if that returns, the two closing lines. *)
Lemma main_run_root (args : Args) (w : W) (root : string) :
  missing_tools H w = [] ->
  arg_check args = false ->
  arg_vcpkg_root args = Some root ->
  root <> EmptyString ->
  path_exists H w (path_of H root) = true ->
  main H args w
  = let o := install_dependencies H (path_of H root) (project_root_of H w)
                                  (triplet_used H args) (arg_verbose args) w in
    mkOut (match res o with Return _ => Return 0%Z | Raise e => Raise e end)
          (world o)
          (main_header H w ++ check_trace H w ++ triplet_trace H args ++ trace o
           ++ match res o with
              | Return _ => success_lines H args w
              | Raise _ => []
              end)%list.
Proof.
  intros Hm Hc Hr Hne Hex.
  destruct root as [|c root]; [congruence|].
  unfold main, bind, get_platform, get_triplet, print, enter, emit, ask, ret.
  cbn -[append]. rewrite check_dependencies_run, Hm, Hc, Hr.
  unfold triplet_trace, success_lines, triplet_used, project_root_of.
  destruct (arg_triplet args) as [[|d t]|];
    cbn -[append check_trace]; rewrite Hex; cbn -[append check_trace];
    destruct_step (@install_dependencies W Path);
    cbn -[append check_trace]; rewrite ?app_nil_r; reflexivity.
Qed.

(** Past the tool check without a usable root, [main] is the bootstrap
    step, then the install step on the checkout, then the closing lines;
    the first step that raises ends the run. *)
Lemma main_run_clone (args : Args) (w : W) :
  missing_tools H w = [] ->
  arg_check args = false ->
  optstr_truthy (arg_vcpkg_root args) = false ->
  main H args w
  = let pre := (main_header H w ++ check_trace H w ++ triplet_trace H args)%list in
    let o1 := setup_vcpkg H (project_root_of H w) (arg_verbose args) w in
    match res o1 with
    | Raise e => mkOut (Raise e) (world o1) (pre ++ trace o1)%list
    | Return dir =>
        let o2 := install_dependencies H dir (project_root_of H w)
                                       (triplet_used H args) (arg_verbose args)
                                       (world o1) in
        mkOut (match res o2 with Return _ => Return 0%Z | Raise e => Raise e end)
              (world o2)
              (pre ++ trace o1 ++ trace o2
               ++ match res o2 with
                  | Return _ => success_lines H args w
                  | Raise _ => []
                  end)%list
    end.
Proof.
  intros Hm Hc Hr.
  unfold main, bind, get_platform, get_triplet, print, enter, emit, ask, ret.
  cbn -[append check_trace main_header].
  rewrite check_dependencies_run, Hm, Hc, Hr.
  unfold triplet_trace, success_lines, triplet_used, project_root_of.
  destruct (arg_triplet args) as [[|d t]|];
    cbn -[append check_trace main_header];
    destruct_step (@setup_vcpkg W Path);
    cbn -[append check_trace main_header]; rewrite <- ?app_assoc;
    try reflexivity;
    destruct_step (@install_dependencies W Path);
    cbn -[append check_trace main_header]; rewrite <- ?app_assoc, ?app_nil_r;
    reflexivity.
Qed.

End Steps.

Section StepFacts.

Context {W Path : Type}.
Variable H : @Host W Path.

Lemma spawns_app (t1 t2 : list (@event Path)) :
  spawns (t1 ++ t2) = (spawns t1 ++ spawns t2)%list.
Proof. apply filter_app. Qed.

Lemma no_action_spawns (t : list (@event Path)) : no_action t -> spawns t = [].
Proof.
  unfold no_action, spawns. induction t as [|e t IH]; [reflexivity|].
  destruct e as [l|c|argv cwd env cap]; [|destruct c|]; cbn;
    try exact IH; discriminate.
Qed.

(** Whatever the child does, [run_command] starts it once. *)
Lemma run_command_spawns (cmd : command) (cwd : option Path) (env : option Dict.t)
    (capture : bool) (w : W) :
  spawns (trace (run_command H cmd cwd env capture w))
  = [spawn_event H w cmd cwd env capture].
Proof.
  rewrite run_command_run. cbv zeta. unfold spawn_event.
  destruct (spawn H w (argv_of cmd) cwd (merged_env_of H w env) capture)
    as [[code out err|name msg] w']; [destruct (code =? 0)%Z|]; cbn [trace];
    try reflexivity.
  unfold failure_report. destruct (capture && PyStr.truthy err); reflexivity.
Qed.

(** The result and the world of a [run_command] that does not capture. *)
Lemma run_command_exit (cmd : command) (cwd : option Path) (w w' : W)
    (code : Z) (out err : string) :
  spawn H w (argv_of cmd) cwd (os_environ H w) false = (Exited code out err, w') ->
  res (run_command H cmd cwd None false w)
  = (if (code =? 0)%Z then Return None
     else Raise (CalledProcessError code (argv_of cmd) None None))
  /\ world (run_command H cmd cwd None false w) = w'.
Proof.
  intros Hs. rewrite run_command_run. cbv zeta.
  change (merged_env_of H w None) with (os_environ H w). rewrite Hs.
  destruct (code =? 0)%Z; split; reflexivity.
Qed.

(** Without the executable, [install_dependencies] raises at once. *)
Lemma install_dependencies_missing (dir root : Path) (triplet : string)
    (verbose : bool) (w : W) :
  path_exists H w (vcpkg_exe_of H dir) = false ->
  install_dependencies H dir root triplet verbose w
  = mkOut (Raise (RuntimeError ("vcpkg executable not found at "
                                ++ path_str H (vcpkg_exe_of H dir))))
          w [EvCall (CallInstallDependencies dir root triplet verbose)].
Proof.
  intros Hex. unfold install_dependencies, bind, enter, emit, ask, raise.
  cbn -[append]. rewrite Hex. reflexivity.
Qed.

(** [install_dependencies] logs its own call first and spawns at most the
    install command, exactly when the executable is there. *)
Lemma install_dependencies_shape (dir root : Path) (triplet : string)
    (verbose : bool) (w : W) :
  exists rest,
    trace (install_dependencies H dir root triplet verbose w)
    = EvCall (CallInstallDependencies dir root triplet verbose) :: rest
    /\ existsb is_setup_call rest = false
    /\ spawns rest
       = if path_exists H w (vcpkg_exe_of H dir)
         then [EvSpawn (install_argv H dir root triplet verbose) (Some root)
                       (os_environ H w) false]
         else [].
Proof.
  destruct (path_exists H w (vcpkg_exe_of H dir)) eqn:Hex.
  - rewrite (install_dependencies_run H dir root triplet verbose w Hex). cbv zeta.
    cbn [trace]. eexists. split; [reflexivity|]. split.
    + rewrite run_command_run. cbv zeta.
      destruct (spawn H w _ _ _ _) as [[code out err|name msg] w'];
        [destruct (code =? 0)%Z|]; try reflexivity.
    + change (spawns (EvPrint ?l :: ?t)) with (spawns t).
      apply run_command_spawns.
  - rewrite (install_dependencies_missing dir root triplet verbose w Hex).
    eexists. repeat split.
Qed.

End StepFacts.

(** ** The five ways through [main] *)

Section Ways.

Context {W Path : Type}.
Variable H : @Host W Path.

Lemma missing_tools_forallb (w : W) :
  missing_tools H w = [] <-> forallb (found H w) (required_tools (system H)) = true.
Proof.
  unfold missing_tools.
  induction (required_tools (system H)) as [|t l IH]; cbn; [tauto|].
  destruct (found H w t); cbn; [exact IH|]. split; discriminate.
Qed.

Lemma no_action_no_setup (t : list (@event Path)) :
  no_action t -> existsb is_setup_call t = false.
Proof.
  unfold no_action. induction t as [|e t IH]; [reflexivity|].
  destruct e as [l|c|argv cwd env cap]; [|destruct c|]; cbn;
    try exact IH; discriminate.
Qed.

(** Every run of [main] is one of: stopped by a missing tool; stopped
    after the check by [--check]; stopped by a root that does not exist;
    an install from a root that exists; a bootstrap and an install. *)
Lemma main_ways (args : Args) (w : W) :
  (missing_tools H w <> []
   /\ main H args w = mkOut (Return 1%Z) w (main_header H w ++ check_trace H w)%list)
  \/ (missing_tools H w = [] /\ arg_check args = true
      /\ main H args w
         = mkOut (Return 0%Z) w
                 (main_header H w ++ check_trace H w
                  ++ [EvPrint "All required tools are available."])%list)
  \/ (missing_tools H w = [] /\ arg_check args = false
      /\ exists root,
           arg_vcpkg_root args = Some root /\ root <> EmptyString
           /\ path_exists H w (path_of H root) = false
           /\ main H args w
              = mkOut (Return 1%Z) w
                      (main_header H w ++ check_trace H w ++ triplet_trace H args
                       ++ [EvPrint ("Error: Specified vcpkg root does not exist: "
                                    ++ path_str H (path_of H root))])%list)
  \/ (missing_tools H w = [] /\ arg_check args = false
      /\ exists root,
           arg_vcpkg_root args = Some root /\ root <> EmptyString
           /\ path_exists H w (path_of H root) = true
           /\ main H args w
              = let o := install_dependencies H (path_of H root) (project_root_of H w)
                                              (triplet_used H args) (arg_verbose args) w in
                mkOut (match res o with Return _ => Return 0%Z | Raise e => Raise e end)
                      (world o)
                      (main_header H w ++ check_trace H w ++ triplet_trace H args
                       ++ trace o
                       ++ match res o with
                          | Return _ => success_lines H args w
                          | Raise _ => []
                          end)%list)
  \/ (missing_tools H w = [] /\ arg_check args = false
      /\ optstr_truthy (arg_vcpkg_root args) = false
      /\ main H args w
         = let pre := (main_header H w ++ check_trace H w ++ triplet_trace H args)%list in
           let o1 := setup_vcpkg H (project_root_of H w) (arg_verbose args) w in
           match res o1 with
           | Raise e => mkOut (Raise e) (world o1) (pre ++ trace o1)%list
           | Return dir =>
               let o2 := install_dependencies H dir (project_root_of H w)
                                              (triplet_used H args) (arg_verbose args)
                                              (world o1) in
               mkOut (match res o2 with Return _ => Return 0%Z | Raise e => Raise e end)
                     (world o2)
                     (pre ++ trace o1 ++ trace o2
                      ++ match res o2 with
                         | Return _ => success_lines H args w
                         | Raise _ => []
                         end)%list
           end).
Proof.
  destruct (missing_tools H w) as [|m ms] eqn:Hm.
  2:{ left. split; [discriminate|]. apply main_run_missing. congruence. }
  right. destruct (arg_check args) eqn:Hc.
  { left. repeat split. now apply main_run_check. }
  right. destruct (arg_vcpkg_root args) as [[|c r]|] eqn:Hr.
  - right. right. repeat split. apply main_run_clone; try assumption.
    now rewrite Hr.
  - destruct (path_exists H w (path_of H (String c r))) eqn:Hex.
    + right. left. repeat split. exists (String c r).
      repeat split; try assumption; try discriminate.
      now apply main_run_root.
    + left. repeat split. exists (String c r).
      repeat split; try assumption; try discriminate.
      now apply main_run_bad_root.
  - right. right. repeat split. apply main_run_clone; try assumption.
    now rewrite Hr.
Qed.

(** Every trace of [main] starts with the header and the tool check. *)
Lemma main_trace_prefix (args : Args) (w : W) :
  exists rest, trace (main H args w) = (main_header H w ++ check_trace H w ++ rest)%list.
Proof.
  destruct (main_ways args w)
    as [[_ E]|[(_ & _ & E)|[(_ & _ & r & _ & _ & _ & E)|[(_ & _ & r & _ & _ & _ & E)
                                                        |(_ & _ & _ & E)]]]];
    rewrite E; cbv zeta; cbn [trace].
  - exists []. now rewrite app_nil_r.
  - eexists. reflexivity.
  - eexists. reflexivity.
  - eexists. reflexivity.
  - destruct (res (setup_vcpkg H (project_root_of H w) (arg_verbose args) w));
      cbn [trace]; rewrite <- !app_assoc; eexists; reflexivity.
Qed.

(** A bootstrap whose two commands exit with zero. *)
Lemma setup_vcpkg_exit0 (root : Path) (verbose : bool) (w w1 w2 : W)
    (out1 err1 out2 err2 : string) :
  spawn H w (argv_of (fetch_command H root w)) (fetch_cwd H root w)
        (os_environ H w) false = (Exited 0 out1 err1, w1) ->
  spawn H w1 (argv_of (bootstrap_command H root)) (Some (vcpkg_dir_of H root))
        (os_environ H w1) false = (Exited 0 out2 err2, w2) ->
  res (setup_vcpkg H root verbose w) = Return (vcpkg_dir_of H root)
  /\ world (setup_vcpkg H root verbose w) = w2
  /\ spawns (trace (setup_vcpkg H root verbose w))
     = [EvSpawn (argv_of (fetch_command H root w)) (fetch_cwd H root w)
                (os_environ H w) false;
        EvSpawn (argv_of (bootstrap_command H root)) (Some (vcpkg_dir_of H root))
                (os_environ H w1) false]
  /\ existsb is_install_call (trace (setup_vcpkg H root verbose w)) = false.
Proof.
  intros Hs1 Hs2.
  rewrite setup_vcpkg_run. cbv zeta. rewrite !run_command_run. cbv zeta.
  change (merged_env_of H w None) with (os_environ H w). rewrite Hs1.
  cbn [Z.eqb res world trace].
  change (merged_env_of H w1 None) with (os_environ H w1). rewrite Hs2.
  cbn [Z.eqb res world trace]. repeat split.
Qed.

(** An install whose command exits with zero. *)
Lemma install_dependencies_exit0 (dir root : Path) (triplet : string)
    (verbose : bool) (w w' : W) (out err : string) :
  path_exists H w (vcpkg_exe_of H dir) = true ->
  spawn H w (install_argv H dir root triplet verbose) (Some root)
        (os_environ H w) false = (Exited 0 out err, w') ->
  res (install_dependencies H dir root triplet verbose w) = Return tt
  /\ world (install_dependencies H dir root triplet verbose w) = w'
  /\ spawns (trace (install_dependencies H dir root triplet verbose w))
     = [EvSpawn (install_argv H dir root triplet verbose) (Some root)
                (os_environ H w) false].
Proof.
  intros Hex Hs.
  rewrite (install_dependencies_run H dir root triplet verbose w Hex). cbv zeta.
  rewrite run_command_run. cbv zeta.
  change (merged_env_of H w None) with (os_environ H w). cbn [argv_of]. rewrite Hs.
  repeat split.
Qed.

Lemma spawns_prefix (args : Args) (w : W) :
  spawns (main_header H w ++ check_trace H w ++ triplet_trace H args) = [].
Proof.
  apply no_action_spawns.
  apply no_action_app; [apply no_action_header|].
  apply no_action_app; [apply no_action_check | apply no_action_triplet].
Qed.

End Ways.

(** ** Facts about dictionaries and about joining and splitting *)

Module DictFacts.
Import Dict.

Lemma get_set (d : t) (k v k' : string) :
  get (set d k v) k' = if String.eqb k k' then Some v else get d k'.
Proof.
  induction d as [|[k0 v0] d IH]; cbn.
  - reflexivity.
  - destruct (String.eqb_spec k0 k) as [->|Hne]; cbn.
    + destruct (String.eqb k k'); reflexivity.
    + rewrite IH. destruct (String.eqb_spec k0 k') as [->|Hne'].
      * apply String.eqb_neq in Hne. rewrite String.eqb_sym in Hne. now rewrite Hne.
      * reflexivity.
Qed.

Lemma get_app (d e : t) (k : string) :
  get (d ++ e)%list k = match get d k with Some v => Some v | None => get e k end.
Proof.
  induction d as [|[k0 v0] d IH]; cbn; [reflexivity|].
  destruct (String.eqb k0 k); [reflexivity | exact IH].
Qed.

(** After [d.update(e)], a key bound in [e] has the value [e] gives it
    last, and any other key has the value it had in [d]. *)
Lemma get_update (d e : t) (k : string) :
  get (update d e) k
  = match last_binding e k with Some v => Some v | None => get d k end.
Proof.
  unfold update, last_binding. revert d.
  induction e as [|[k0 v0] e IH]; intros d; cbn [fold_left rev fst snd].
  - reflexivity.
  - rewrite IH, get_app, get_set. cbn [get].
    destruct (get (rev e) k); [reflexivity|].
    destruct (String.eqb k0 k); reflexivity.
Qed.

End DictFacts.

Module JoinFacts.
Import PyStr.

Lemma has_space_no_space (s : string) : has_space s = false -> no_space s.
Proof.
  unfold has_space, no_space. induction s as [|c s IH]; cbn; [constructor|].
  intros Hs. apply Bool.orb_false_iff in Hs. destruct Hs as [Hc Hs].
  constructor; [exact Hc | exact (IH Hs)].
Qed.

Lemma split_from_word (a cur rest : string) :
  no_space a -> split_from cur (a ++ rest) = split_from (cur ++ a) rest.
Proof.
  revert cur. induction a as [|c a IH]; intros cur Ha; cbn.
  - now rewrite PyStrFacts.append_nil_r.
  - inversion Ha as [|c' l Hc Hl]; subst. rewrite Hc.
    rewrite (IH _ Hl), PyStrFacts.append_assoc. reflexivity.
Qed.

(** Joining space-free, non-empty words with one space and splitting
    again gives the words back. *)
Lemma split_join (l : list string) :
  forallb (fun a => truthy a && negb (has_space a)) l = true ->
  split (join " " l) = l.
Proof.
  unfold split, join. induction l as [|a l IH]; [reflexivity|].
  cbn [forallb]. intros Hl.
  apply Bool.andb_true_iff in Hl. destruct Hl as [Ha Hl].
  apply Bool.andb_true_iff in Ha. destruct Ha as [Hne Hns].
  apply Bool.negb_true_iff in Hns. apply has_space_no_space in Hns.
  specialize (IH Hl). destruct l as [|b l].
  - cbn [String.concat].
    rewrite <- (PyStrFacts.append_nil_r a) at 1.
    rewrite (split_from_word a EmptyString EmptyString Hns). cbn.
    now rewrite Hne.
  - cbn [String.concat].
    rewrite (split_from_word a EmptyString _ Hns). cbn [append split_from].
    change (isspace " ") with true. cbv iota.
    rewrite Hne. f_equal. exact IH.
Qed.

End JoinFacts.

(** ** Further properties of the steps *)

(** X1. The first process [setup_vcpkg] starts is git: a clone of the
    vcpkg repository into [project_root/vcpkg], run from where the script
    runs, when that directory does not exist; a pull inside it when it
    does. *)
Theorem setup_vcpkg_fetches_first {W Path : Type} (H : @Host W Path)
    (root : Path) (verbose : bool) (w : W) :
  hd_error (spawns (trace (setup_vcpkg H root verbose w)))
  = Some (if path_exists H w (path_join H root "vcpkg")
          then EvSpawn ["git"; "pull"] (Some (path_join H root "vcpkg"))
                       (os_environ H w) false
          else EvSpawn ["git"; "clone"; "https://github.com/microsoft/vcpkg.git";
                        path_str H (path_join H root "vcpkg")]
                       None (os_environ H w) false).
Proof.
  rewrite setup_vcpkg_run. cbv zeta.
  pose proof (run_command_spawns H (fetch_command H root w) (fetch_cwd H root w)
                None false w) as Hsp.
  destruct (run_command H (fetch_command H root w) (fetch_cwd H root w) None false w)
    as [[a|e] w1 t1]; cbn [res trace world] in *.
  - cbn [app]. change (spawns (?a :: ?b :: ?t)%list) with (spawns t).
    rewrite spawns_app, Hsp. cbn [app hd_error].
    unfold spawn_event, fetch_command, fetch_cwd, vcpkg_dir_of.
    destruct (path_exists H w (path_join H root "vcpkg")); reflexivity.
  - cbn [app]. change (spawns (?a :: ?b :: ?t)%list) with (spawns t).
    rewrite Hsp. cbn [hd_error].
    unfold spawn_event, fetch_command, fetch_cwd, vcpkg_dir_of.
    destruct (path_exists H w (path_join H root "vcpkg")); reflexivity.
Qed.

(** X2. When the git command of [setup_vcpkg] exits with a status other
    than zero, [setup_vcpkg] raises [CalledProcessError] with that status
    and the bootstrap script is never started: git is the only process. *)
Theorem setup_vcpkg_stops_at_git_failure {W Path : Type} (H : @Host W Path)
    (root : Path) (verbose : bool) (w w1 : W) (code : Z) (out err : string) :
  spawn H w (argv_of (fetch_command H root w)) (fetch_cwd H root w)
        (os_environ H w) false = (Exited code out err, w1) ->
  code <> 0%Z ->
  res (setup_vcpkg H root verbose w)
  = Raise (CalledProcessError code (argv_of (fetch_command H root w)) None None)
  /\ world (setup_vcpkg H root verbose w) = w1
  /\ spawns (trace (setup_vcpkg H root verbose w))
     = [EvSpawn (argv_of (fetch_command H root w)) (fetch_cwd H root w)
                (os_environ H w) false].
Proof.
  intros Hs Hc. apply Z.eqb_neq in Hc.
  destruct (run_command_exit H _ _ _ _ _ _ _ Hs) as [Hr Hw]. rewrite Hc in Hr.
  pose proof (run_command_spawns H (fetch_command H root w) (fetch_cwd H root w)
                None false w) as Hsp.
  rewrite setup_vcpkg_run. cbv zeta. rewrite Hr. cbn [res world trace].
  repeat split; [exact Hw|].
  cbn [app]. change (spawns (?a :: ?b :: ?t)%list) with (spawns t). exact Hsp.
Qed.

Lemma setup_vcpkg_stops_at_git_failure_witness :
  res (setup_vcpkg Sim.offline "/repo" false Sim.fresh)
  = Raise (CalledProcessError 128
             ["git"; "clone"; "https://github.com/microsoft/vcpkg.git"; "/repo/vcpkg"]
             None None)
  /\ world (setup_vcpkg Sim.offline "/repo" false Sim.fresh) = Sim.fresh
  /\ spawns (trace (setup_vcpkg Sim.offline "/repo" false Sim.fresh))
     = [EvSpawn ["git"; "clone"; "https://github.com/microsoft/vcpkg.git"; "/repo/vcpkg"]
                None [("PATH", "/usr/bin")] false].
Proof.
  apply (setup_vcpkg_stops_at_git_failure Sim.offline "/repo" false Sim.fresh
           Sim.fresh 128 "" "fatal: unable to access the remote").
  - reflexivity.
  - discriminate.
Defined.

(** X3. When the git command exits with zero, the second and last process
    of [setup_vcpkg] is the bootstrap script of the checkout, run inside
    it with -disableMetrics: the .bat file itself on windows, the .sh file
    through sh elsewhere.  [setup_vcpkg] returns [project_root/vcpkg] when
    that exits with zero and raises [CalledProcessError] otherwise. *)
Theorem setup_vcpkg_bootstraps {W Path : Type} (H : @Host W Path)
    (root : Path) (verbose : bool) (w w1 w2 : W) (code : Z)
    (out1 err1 out2 err2 : string) :
  spawn H w (argv_of (fetch_command H root w)) (fetch_cwd H root w)
        (os_environ H w) false = (Exited 0 out1 err1, w1) ->
  spawn H w1 (argv_of (bootstrap_command H root)) (Some (path_join H root "vcpkg"))
        (os_environ H w1) false = (Exited code out2 err2, w2) ->
  res (setup_vcpkg H root verbose w)
  = (if (code =? 0)%Z then Return (path_join H root "vcpkg")
     else Raise (CalledProcessError code (argv_of (bootstrap_command H root)) None None))
  /\ world (setup_vcpkg H root verbose w) = w2
  /\ spawns (trace (setup_vcpkg H root verbose w))
     = [EvSpawn (argv_of (fetch_command H root w)) (fetch_cwd H root w)
                (os_environ H w) false;
        EvSpawn (if system H =? "windows"
                 then [path_str H (path_join H (path_join H root "vcpkg")
                                             "bootstrap-vcpkg.bat");
                       "-disableMetrics"]
                 else ["sh";
                       path_str H (path_join H (path_join H root "vcpkg")
                                             "bootstrap-vcpkg.sh");
                       "-disableMetrics"])
                (Some (path_join H root "vcpkg")) (os_environ H w1) false].
Proof.
  intros Hs1 Hs2.
  destruct (run_command_exit H _ _ _ _ _ _ _ Hs1) as [Hr1 Hw1]. cbn in Hr1.
  destruct (run_command_exit H _ _ _ _ _ _ _ Hs2) as [Hr2 Hw2].
  pose proof (run_command_spawns H (fetch_command H root w) (fetch_cwd H root w)
                None false w) as Hsp1.
  pose proof (run_command_spawns H (bootstrap_command H root)
                (Some (path_join H root "vcpkg")) None false w1) as Hsp2.
  rewrite setup_vcpkg_run. cbv zeta. rewrite Hr1, Hw1. unfold vcpkg_dir_of.
  rewrite Hr2, Hw2. cbn [res world trace].
  split; [destruct (code =? 0)%Z; reflexivity|]. split; [reflexivity|].
  cbn [app]. change (spawns (?a :: ?b :: ?t)%list) with (spawns t).
  rewrite spawns_app, Hsp1, Hsp2. unfold spawn_event at 2.
  unfold bootstrap_command, vcpkg_dir_of.
  destruct (system H =? "windows"); reflexivity.
Qed.

Lemma setup_vcpkg_bootstraps_witness :
  res (setup_vcpkg Sim.windows "/repo" false Sim.ready) = Return "/repo/vcpkg"
  /\ world (setup_vcpkg Sim.windows "/repo" false Sim.ready)
     = "/repo/vcpkg/vcpkg.exe" :: Sim.ready
  /\ spawns (trace (setup_vcpkg Sim.windows "/repo" false Sim.ready))
     = [EvSpawn ["git"; "pull"] (Some "/repo/vcpkg") [("PATH", "/usr/bin")] false;
        EvSpawn ["/repo/vcpkg/bootstrap-vcpkg.bat"; "-disableMetrics"]
                (Some "/repo/vcpkg") [("PATH", "/usr/bin")] false].
Proof.
  apply (setup_vcpkg_bootstraps Sim.windows "/repo" false Sim.ready Sim.ready
           ("/repo/vcpkg/vcpkg.exe" :: Sim.ready) 0 "" "" "" "").
  - reflexivity.
  - reflexivity.
Defined.

(** X4. [setup_vcpkg] ignores its [verbose] argument: result, final world
    and everything it logs after its own call are the same with and
    without it. *)
Theorem setup_vcpkg_ignores_verbose {W Path : Type} (H : @Host W Path)
    (root : Path) (w : W) :
  res (setup_vcpkg H root true w) = res (setup_vcpkg H root false w)
  /\ world (setup_vcpkg H root true w) = world (setup_vcpkg H root false w)
  /\ tl (trace (setup_vcpkg H root true w)) = tl (trace (setup_vcpkg H root false w)).
Proof.
  rewrite !setup_vcpkg_run. cbv zeta.
  destruct (run_command H (fetch_command H root w) (fetch_cwd H root w) None false w)
    as [[a|e] w1 t1]; cbn [res world trace]; repeat split.
Qed.

(** X5. With the executable in place, [install_dependencies] starts one
    process in the project root: the executable with install, the
    triplet, the manifest root and the install root [root/vcpkg_installed],
    and --debug at the end exactly when [verbose] is set.  It returns when
    that exits with zero and raises [CalledProcessError] otherwise. *)
Theorem install_runs_vcpkg_once {W Path : Type} (H : @Host W Path)
    (dir root : Path) (triplet : string) (verbose : bool) (w w' : W)
    (code : Z) (out err : string) :
  path_exists H w (vcpkg_exe_of H dir) = true ->
  spawn H w (install_argv H dir root triplet verbose) (Some root)
        (os_environ H w) false = (Exited code out err, w') ->
  res (install_dependencies H dir root triplet verbose w)
  = (if (code =? 0)%Z then Return tt
     else Raise (CalledProcessError code (install_argv H dir root triplet verbose)
                   None None))
  /\ world (install_dependencies H dir root triplet verbose w) = w'
  /\ spawns (trace (install_dependencies H dir root triplet verbose w))
     = [EvSpawn ([path_str H (vcpkg_exe_of H dir);
                  "install";
                  ("--triplet=" ++ triplet)%string;
                  ("--x-manifest-root=" ++ path_str H root)%string;
                  ("--x-install-root="
                   ++ path_str H (path_join H root "vcpkg_installed"))%string]
                 ++ (if verbose then ["--debug"] else []))%list
                (Some root) (os_environ H w) false].
Proof.
  intros Hex Hs.
  destruct (run_command_exit H (CmdList (install_argv H dir root triplet verbose))
              _ _ _ _ _ _ Hs) as [Hr Hw].
  pose proof (run_command_spawns H (CmdList (install_argv H dir root triplet verbose))
                (Some root) None false w) as Hsp.
  rewrite (install_dependencies_run H dir root triplet verbose w Hex). cbv zeta.
  rewrite Hr, Hw. cbn [res world trace].
  split; [destruct (code =? 0)%Z; reflexivity|]. split; [reflexivity|].
  change (spawns (?a :: ?b :: ?t)%list) with (spawns t). rewrite Hsp.
  unfold spawn_event, install_argv. destruct verbose; reflexivity.
Qed.

Lemma install_runs_vcpkg_once_witness :
  res (install_dependencies Sim.linux "/opt/vcpkg" "/repo" "x64-linux" true Sim.ready)
  = Return tt
  /\ world (install_dependencies Sim.linux "/opt/vcpkg" "/repo" "x64-linux" true Sim.ready)
     = Sim.ready
  /\ spawns (trace (install_dependencies Sim.linux "/opt/vcpkg" "/repo" "x64-linux"
                                         true Sim.ready))
     = [EvSpawn ["/opt/vcpkg/vcpkg"; "install"; "--triplet=x64-linux";
                 "--x-manifest-root=/repo"; "--x-install-root=/repo/vcpkg_installed";
                 "--debug"]
                (Some "/repo") [("PATH", "/usr/bin")] false].
Proof.
  apply (install_runs_vcpkg_once Sim.linux "/opt/vcpkg" "/repo" "x64-linux" true
           Sim.ready Sim.ready 0 "" "").
  - reflexivity.
  - reflexivity.
Defined.

(** X6. [run_command] starts exactly one process per call, whatever form
    the command has and however the process ends: there is no retry. *)
Theorem run_command_never_retries {W Path : Type} (H : @Host W Path)
    (cmd : command) (cwd : option Path) (env : option Dict.t) (capture : bool)
    (w : W) :
  spawns (trace (run_command H cmd cwd env capture w))
  = [EvSpawn (match cmd with CmdStr s => PyStr.split s | CmdList l => l end)
             cwd (merged_env_of H w env) capture].
Proof.
  rewrite run_command_spawns. unfold spawn_event. destruct cmd; reflexivity.
Qed.

(** X7. An error of the host in starting the process is not a
    [CalledProcessError]: it passes through [run_command] as it is, and
    neither the failure line nor the error line is printed. *)
Theorem run_command_passes_host_errors {W Path : Type} (H : @Host W Path)
    (cmd : command) (cwd : option Path) (env : option Dict.t) (capture : bool)
    (w w' : W) (name msg : string) :
  spawn H w (argv_of cmd) cwd (merged_env_of H w env) capture
  = (SpawnFailed name msg, w') ->
  run_command H cmd cwd env capture w
  = mkOut (Raise (HostError name msg)) w'
          (run_prologue cmd cwd env capture
           ++ [EvSpawn (argv_of cmd) cwd (merged_env_of H w env) capture])%list.
Proof.
  intros Hs. rewrite run_command_run, Hs. reflexivity.
Qed.

Lemma run_command_passes_host_errors_witness :
  run_command Sim.broken (CmdList ["git"; "pull"]) (Some "/repo/vcpkg") None true
              Sim.ready
  = mkOut (Raise (HostError "FileNotFoundError" "No such file or directory"))
          Sim.ready
          [EvCall (CallRunCommand (CmdList ["git"; "pull"]) (Some "/repo/vcpkg")
                                  None true);
           EvPrint "Running: git pull";
           EvSpawn ["git"; "pull"] (Some "/repo/vcpkg") [("PATH", "/usr/bin")] true].
Proof.
  apply (run_command_passes_host_errors Sim.broken (CmdList ["git"; "pull"])
           (Some "/repo/vcpkg") None true Sim.ready Sim.ready
           "FileNotFoundError" "No such file or directory").
  reflexivity.
Defined.

(** X8. The environment of the child is the inherited one with the extra
    variables written over it: a name bound in [env] has the value [env]
    gives it, any other name the value it has in [os.environ]; without
    [env], or with an empty one, the inherited environment is passed as
    it is. *)
Theorem run_command_merges_env {W Path : Type} (H : @Host W Path)
    (cmd : command) (cwd : option Path) (env : option Dict.t) (capture : bool)
    (w : W) :
  exists child_env,
    spawns (trace (run_command H cmd cwd env capture w))
    = [EvSpawn (argv_of cmd) cwd child_env capture]
    /\ (forall k,
          Dict.get child_env k
          = match Dict.last_binding (match env with Some e => e | None => [] end) k with
            | Some v => Some v
            | None => Dict.get (os_environ H w) k
            end)
    /\ match env with
       | None | Some [] => child_env = os_environ H w
       | Some (_ :: _) => True
       end.
Proof.
  exists (merged_env_of H w env). split; [apply run_command_spawns|].
  unfold merged_env_of. split.
  - intros k. destruct env as [[|kv e]|]; cbn [Dict.truthy]; try reflexivity.
    apply DictFacts.get_update.
  - destruct env as [[|kv e]|]; cbn [Dict.truthy]; auto.
Qed.

Example run_command_merges_env_ex :
  spawns (trace (run_command Sim.linux (CmdList ["cmake"; "--version"]) None
                             (Some [("VCPKG_ROOT", "/opt/vcpkg"); ("PATH", "/bin")])
                             false Sim.fresh))
  = [EvSpawn ["cmake"; "--version"] None
             [("PATH", "/bin"); ("VCPKG_ROOT", "/opt/vcpkg")] false].
Proof. reflexivity. Qed.

(** X9. A list command whose arguments are non-empty and free of spaces
    can as well be given as the line [run_command] prints for it: the
    line splits back into the list, and the run has the same result, the
    same final world and the same process. *)
Theorem printed_line_runs_the_same {W Path : Type} (H : @Host W Path)
    (l : list string) (cwd : option Path) (env : option Dict.t) (capture : bool)
    (w : W) :
  forallb (fun a => PyStr.truthy a && negb (PyStr.has_space a)) l = true ->
  PyStr.split (PyStr.join " " l) = l
  /\ res (run_command H (CmdStr (PyStr.join " " l)) cwd env capture w)
     = res (run_command H (CmdList l) cwd env capture w)
  /\ world (run_command H (CmdStr (PyStr.join " " l)) cwd env capture w)
     = world (run_command H (CmdList l) cwd env capture w)
  /\ spawns (trace (run_command H (CmdStr (PyStr.join " " l)) cwd env capture w))
     = spawns (trace (run_command H (CmdList l) cwd env capture w)).
Proof.
  intros Hl. pose proof (JoinFacts.split_join l Hl) as Hsj.
  split; [exact Hsj|].
  rewrite !run_command_spawns. unfold spawn_event.
  rewrite !run_command_run. cbv zeta. unfold spawn_event. cbn [argv_of].
  rewrite Hsj.
  destruct (spawn H w l cwd (merged_env_of H w env) capture)
    as [[code out err|name msg] w']; [destruct (code =? 0)%Z|];
    repeat split.
Qed.

Lemma printed_line_runs_the_same_witness :
  PyStr.split (PyStr.join " " ["git"; "clone"; "https://github.com/microsoft/vcpkg.git";
                               "/repo/vcpkg"])
  = ["git"; "clone"; "https://github.com/microsoft/vcpkg.git"; "/repo/vcpkg"].
Proof.
  apply (proj1 (printed_line_runs_the_same Sim.linux
                  ["git"; "clone"; "https://github.com/microsoft/vcpkg.git"; "/repo/vcpkg"]
                  None None false Sim.fresh eq_refl)).
Defined.

(** ** Further properties of [main] *)

(** On a parsed command line, a status [main] returns is 0 or 1. *)
Lemma main_exit_status {W Path : Type} (H : @Host W Path)
    (args : Args) (w : W) (status : Z) :
  res (main H args w) = Return status -> status = 0%Z \/ status = 1%Z.
Proof.
  destruct (main_ways H args w)
    as [[_ E]|[(_ & _ & E)|[(_ & _ & r & _ & _ & _ & E)|[(_ & _ & r & _ & _ & _ & E)
                                                        |(_ & _ & _ & E)]]]];
    rewrite E; cbv zeta; cbn [res].
  - intros [= <-]. now right.
  - intros [= <-]. now left.
  - intros [= <-]. now right.
  - destruct (res (install_dependencies H _ _ _ _ w)); [|discriminate].
    intros [= <-]. now left.
  - destruct (res (setup_vcpkg H _ _ w)) as [dir|e]; cbn [res]; [|discriminate].
    destruct (res (install_dependencies H dir _ _ _ _)); [|discriminate].
    intros [= <-]. now left.
Qed.

(** On a parsed command line, [main] raises only past the tool check of
    a run without [--check]. *)
Lemma main_raises_only_past_check {W Path : Type} (H : @Host W Path)
    (args : Args) (w : W) (e : exn) :
  res (main H args w) = Raise e ->
  forallb (found H w) (required_tools (system H)) = true
  /\ arg_check args = false.
Proof.
  destruct (main_ways H args w)
    as [[_ E]|[(_ & _ & E)|[(_ & _ & r & _ & _ & _ & E)|[(Hm & Hc & _)
                                                        |(Hm & Hc & _)]]]];
    try (rewrite E; discriminate);
    intros _; split; try assumption; now apply missing_tools_forallb.
Qed.

(** X12. A run without [--check] that returns 0 has entered
    [install_dependencies], and the last two lines it printed are the
    completion line and the line naming [root/vcpkg_installed/triplet]. *)
Theorem main_success_means_installed {W Path : Type} (H : @Host W Path)
    (args : Args) (w : W) :
  arg_check args = false ->
  res (main H args w) = Return 0%Z ->
  exists before,
    trace (main H args w)
    = (before
       ++ [EvPrint (PyStr.NL ++ "Setup complete!");
           EvPrint ("Dependencies installed to: "
                    ++ path_str H (path_join H
                                     (path_join H (project_root_of H w) "vcpkg_installed")
                                     (triplet_used H args)))])%list
    /\ existsb is_install_call before = true.
Proof.
  intros Hc.
  destruct (main_ways H args w)
    as [[_ E]|[(_ & Hc' & E)|[(_ & _ & r & _ & _ & _ & E)|[(_ & _ & r & _ & _ & _ & E)
                                                          |(_ & _ & _ & E)]]]];
    try congruence; rewrite E; cbv zeta; cbn [res trace]; try discriminate.
  - destruct (install_dependencies_shape H (path_of H r) (project_root_of H w)
                (triplet_used H args) (arg_verbose args) w) as (rest & Ht & _).
    destruct (install_dependencies H (path_of H r) _ _ _ w) as [[[]|e] w1 t1];
      cbn [res trace] in *; [|discriminate].
    intros _. exists (main_header H w ++ check_trace H w ++ triplet_trace H args ++ t1)%list.
    split; [now rewrite <- !app_assoc|].
    rewrite Ht, !existsb_app. cbn. now rewrite !Bool.orb_true_r.
  - destruct (setup_vcpkg H (project_root_of H w) (arg_verbose args) w)
      as [[dir|e] w1 t1]; cbn [res trace world]; [|discriminate].
    destruct (install_dependencies_shape H dir (project_root_of H w)
                (triplet_used H args) (arg_verbose args) w1) as (rest & Ht & _).
    destruct (install_dependencies H dir _ _ _ w1) as [[[]|e] w2 t2];
      cbn [res trace] in *; [|discriminate].
    intros _.
    exists ((main_header H w ++ check_trace H w ++ triplet_trace H args) ++ t1 ++ t2)%list.
    split; [now rewrite <- !app_assoc|].
    rewrite Ht, !existsb_app. cbn. now rewrite !Bool.orb_true_r.
Qed.

Lemma main_success_means_installed_witness :
  exists before,
    trace (main Sim.linux (mkArgs false false None None) Sim.fresh)
    = (before
       ++ [EvPrint (PyStr.NL ++ "Setup complete!");
           EvPrint "Dependencies installed to: /repo/vcpkg_installed/x64-linux"])%list
    /\ existsb is_install_call before = true.
Proof.
  apply (main_success_means_installed Sim.linux (mkArgs false false None None) Sim.fresh).
  - reflexivity.
  - reflexivity.
Defined.

(** On a parsed command line, [main] first prints the project root and
    the platform, then enters [check_dependencies] and probes each
    required tool, in the order of the list. *)
Lemma main_always_checks_tools {W Path : Type} (H : @Host W Path)
    (args : Args) (w : W) :
  exists rest,
    trace (main H args w)
    = ([EvPrint ("Project root: " ++ path_str H (project_root_of H w));
        EvCall CallGetPlatform;
        EvPrint ("Platform: " ++ system H);
        EvCall CallCheckDependencies]
       ++ map (fun t => EvCall (CallCheckTool t)) (required_tools (system H))
       ++ rest)%list.
Proof.
  destruct (main_trace_prefix H args w) as [rest E]. rewrite E.
  unfold main_header, check_trace. cbn [app].
  rewrite <- app_assoc. eexists. reflexivity.
Qed.

(** X14. With every tool found, no [--check] and a non-empty root that
    exists, [main] never enters [setup_vcpkg]: nothing is cloned, pulled or
    bootstrapped.  It enters [install_dependencies] on that root with the
    triplet settled on, and the install command is the only process, if
    the executable is there; otherwise there is none. *)
Theorem main_with_root_skips_bootstrap {W Path : Type} (H : @Host W Path)
    (args : Args) (w : W) (root : string) :
  forallb (found H w) (required_tools (system H)) = true ->
  arg_check args = false ->
  arg_vcpkg_root args = Some root ->
  root <> EmptyString ->
  path_exists H w (path_of H root) = true ->
  existsb is_setup_call (trace (main H args w)) = false
  /\ In (EvCall (CallInstallDependencies (path_of H root) (project_root_of H w)
                                         (triplet_used H args) (arg_verbose args)))
        (trace (main H args w))
  /\ spawns (trace (main H args w))
     = if path_exists H w (vcpkg_exe_of H (path_of H root))
       then [EvSpawn (install_argv H (path_of H root) (project_root_of H w)
                                   (triplet_used H args) (arg_verbose args))
                     (Some (project_root_of H w)) (os_environ H w) false]
       else [].
Proof.
  intros Ht Hc Hr Hne Hex. apply missing_tools_forallb in Ht.
  rewrite (main_run_root H args w root Ht Hc Hr Hne Hex). cbv zeta. cbn [trace].
  destruct (install_dependencies_shape H (path_of H root) (project_root_of H w)
              (triplet_used H args) (arg_verbose args) w) as (rest & Etr & Hns & Hsp).
  rewrite Etr.
  assert (Hpre : no_action (main_header H w ++ check_trace H w ++ triplet_trace H args)).
  { apply no_action_app; [apply no_action_header|].
    apply no_action_app; [apply no_action_check | apply no_action_triplet]. }
  assert (Htail : forall o : result unit,
             existsb is_setup_call
               (match o with Return _ => success_lines H args w | Raise _ => [] end) = false
             /\ spawns (match o with Return _ => success_lines H args w | Raise _ => [] end)
                = []).
  { intros [a|e]; split; reflexivity. }
  destruct (Htail (res (install_dependencies H (path_of H root) (project_root_of H w)
                          (triplet_used H args) (arg_verbose args) w))) as [Hts Htsp].
  match goal with
  | |- context [(main_header H w ++ check_trace H w ++ triplet_trace H args ++ ?t ++ ?s)%list] =>
      replace (main_header H w ++ check_trace H w ++ triplet_trace H args ++ t ++ s)%list
        with ((main_header H w ++ check_trace H w ++ triplet_trace H args) ++ t ++ s)%list
        by (now rewrite <- !app_assoc)
  end.
  split; [|split].
  - rewrite existsb_app, (no_action_no_setup _ Hpre), existsb_app, Hts. cbn.
    now rewrite Hns.
  - apply in_or_app. right. now left.
  - rewrite spawns_app, (no_action_spawns _ Hpre), spawns_app, Htsp, app_nil_r.
    cbn [app].
    change (spawns (EvCall ?c :: ?t)) with (spawns t). exact Hsp.
Qed.

Lemma main_with_root_skips_bootstrap_witness :
  existsb is_setup_call
    (trace (main Sim.linux (mkArgs false false None (Some "/opt/vcpkg")) Sim.ready))
  = false
  /\ In (EvCall (CallInstallDependencies "/opt/vcpkg" "/repo" "x64-linux" false))
        (trace (main Sim.linux (mkArgs false false None (Some "/opt/vcpkg")) Sim.ready))
  /\ spawns (trace (main Sim.linux (mkArgs false false None (Some "/opt/vcpkg")) Sim.ready))
     = [EvSpawn ["/opt/vcpkg/vcpkg"; "install"; "--triplet=x64-linux";
                 "--x-manifest-root=/repo"; "--x-install-root=/repo/vcpkg_installed"]
                (Some "/repo") [("PATH", "/usr/bin")] false].
Proof.
  apply (main_with_root_skips_bootstrap Sim.linux
           (mkArgs false false None (Some "/opt/vcpkg")) Sim.ready "/opt/vcpkg").
  - reflexivity.
  - reflexivity.
  - reflexivity.
  - discriminate.
  - reflexivity.
Defined.

(** X15. The whole run.  With every tool found, no [--check] and no
    usable root: if git and then the bootstrap script exit with zero, the
    executable is in the checkout afterwards and the install command exits
    with zero, then [main] returns 0, and these three are the processes it
    started, in this order, each in the world the one before left. *)
Theorem main_fetches_bootstraps_installs {W Path : Type} (H : @Host W Path)
    (args : Args) (w w1 w2 w3 : W) (out1 err1 out2 err2 out3 err3 : string) :
  forallb (found H w) (required_tools (system H)) = true ->
  arg_check args = false ->
  optstr_truthy (arg_vcpkg_root args) = false ->
  spawn H w (argv_of (fetch_command H (project_root_of H w) w))
        (fetch_cwd H (project_root_of H w) w) (os_environ H w) false
  = (Exited 0 out1 err1, w1) ->
  spawn H w1 (argv_of (bootstrap_command H (project_root_of H w)))
        (Some (vcpkg_dir_of H (project_root_of H w))) (os_environ H w1) false
  = (Exited 0 out2 err2, w2) ->
  path_exists H w2 (vcpkg_exe_of H (vcpkg_dir_of H (project_root_of H w))) = true ->
  spawn H w2 (install_argv H (vcpkg_dir_of H (project_root_of H w)) (project_root_of H w)
                           (triplet_used H args) (arg_verbose args))
        (Some (project_root_of H w)) (os_environ H w2) false
  = (Exited 0 out3 err3, w3) ->
  res (main H args w) = Return 0%Z
  /\ world (main H args w) = w3
  /\ spawns (trace (main H args w))
     = [EvSpawn (argv_of (fetch_command H (project_root_of H w) w))
                (fetch_cwd H (project_root_of H w) w) (os_environ H w) false;
        EvSpawn (argv_of (bootstrap_command H (project_root_of H w)))
                (Some (vcpkg_dir_of H (project_root_of H w))) (os_environ H w1) false;
        EvSpawn (install_argv H (vcpkg_dir_of H (project_root_of H w))
                              (project_root_of H w) (triplet_used H args)
                              (arg_verbose args))
                (Some (project_root_of H w)) (os_environ H w2) false].
Proof.
  intros Ht Hc Hr Hs1 Hs2 Hex Hs3. apply missing_tools_forallb in Ht.
  destruct (setup_vcpkg_exit0 H _ (arg_verbose args) _ _ _ _ _ _ _ Hs1 Hs2)
    as (Hr1 & Hw1 & Hsp1 & _).
  rewrite (main_run_clone H args w Ht Hc Hr). cbv zeta. rewrite Hr1, Hw1.
  destruct (install_dependencies_exit0 H _ _ _ (arg_verbose args) _ _ _ _ Hex Hs3)
    as (Hr3 & Hw3 & Hsp3).
  rewrite Hr3, Hw3. cbn [res world trace].
  repeat split.
  rewrite spawns_app, spawns_prefix, spawns_app, Hsp1, spawns_app, Hsp3.
  reflexivity.
Qed.

Lemma main_fetches_bootstraps_installs_witness :
  res (main Sim.linux (mkArgs true false None None) Sim.fresh) = Return 0%Z
  /\ world (main Sim.linux (mkArgs true false None None) Sim.fresh)
     = "/repo/vcpkg/vcpkg" :: "/repo/vcpkg" :: Sim.fresh
  /\ spawns (trace (main Sim.linux (mkArgs true false None None) Sim.fresh))
     = [EvSpawn ["git"; "clone"; "https://github.com/microsoft/vcpkg.git"; "/repo/vcpkg"]
                None [("PATH", "/usr/bin")] false;
        EvSpawn ["sh"; "/repo/vcpkg/bootstrap-vcpkg.sh"; "-disableMetrics"]
                (Some "/repo/vcpkg") [("PATH", "/usr/bin")] false;
        EvSpawn ["/repo/vcpkg/vcpkg"; "install"; "--triplet=x64-linux";
                 "--x-manifest-root=/repo"; "--x-install-root=/repo/vcpkg_installed";
                 "--debug"]
                (Some "/repo") [("PATH", "/usr/bin")] false].
Proof.
  apply (main_fetches_bootstraps_installs Sim.linux (mkArgs true false None None)
           Sim.fresh ("/repo/vcpkg" :: Sim.fresh)
           ("/repo/vcpkg/vcpkg" :: "/repo/vcpkg" :: Sim.fresh)
           ("/repo/vcpkg/vcpkg" :: "/repo/vcpkg" :: Sim.fresh)
           "" "" "" "" "" "");
    reflexivity.
Defined.

(** X16. If git and the bootstrap script exit with zero but leave no
    executable in the checkout, [main] raises the [RuntimeError] naming
    the path, after these two processes and without starting a third. *)
Theorem main_stops_without_executable {W Path : Type} (H : @Host W Path)
    (args : Args) (w w1 w2 : W) (out1 err1 out2 err2 : string) :
  forallb (found H w) (required_tools (system H)) = true ->
  arg_check args = false ->
  optstr_truthy (arg_vcpkg_root args) = false ->
  spawn H w (argv_of (fetch_command H (project_root_of H w) w))
        (fetch_cwd H (project_root_of H w) w) (os_environ H w) false
  = (Exited 0 out1 err1, w1) ->
  spawn H w1 (argv_of (bootstrap_command H (project_root_of H w)))
        (Some (vcpkg_dir_of H (project_root_of H w))) (os_environ H w1) false
  = (Exited 0 out2 err2, w2) ->
  path_exists H w2 (vcpkg_exe_of H (vcpkg_dir_of H (project_root_of H w))) = false ->
  res (main H args w)
  = Raise (RuntimeError
             ("vcpkg executable not found at "
              ++ path_str H (vcpkg_exe_of H (vcpkg_dir_of H (project_root_of H w)))))
  /\ world (main H args w) = w2
  /\ spawns (trace (main H args w))
     = [EvSpawn (argv_of (fetch_command H (project_root_of H w) w))
                (fetch_cwd H (project_root_of H w) w) (os_environ H w) false;
        EvSpawn (argv_of (bootstrap_command H (project_root_of H w)))
                (Some (vcpkg_dir_of H (project_root_of H w))) (os_environ H w1) false].
Proof.
  intros Ht Hc Hr Hs1 Hs2 Hex. apply missing_tools_forallb in Ht.
  destruct (setup_vcpkg_exit0 H _ (arg_verbose args) _ _ _ _ _ _ _ Hs1 Hs2)
    as (Hr1 & Hw1 & Hsp1 & Hni).
  rewrite (main_run_clone H args w Ht Hc Hr). cbv zeta. rewrite Hr1, Hw1.
  rewrite (install_dependencies_missing H _ (project_root_of H w) (triplet_used H args)
             (arg_verbose args) w2 Hex).
  cbn [res world trace]. repeat split.
  rewrite spawns_app, spawns_prefix, spawns_app, Hsp1. reflexivity.
Qed.

Lemma main_stops_without_executable_witness :
  res (main Sim.inert (mkArgs false false None None) Sim.fresh)
  = Raise (RuntimeError "vcpkg executable not found at /repo/vcpkg/vcpkg")
  /\ world (main Sim.inert (mkArgs false false None None) Sim.fresh) = Sim.fresh
  /\ spawns (trace (main Sim.inert (mkArgs false false None None) Sim.fresh))
     = [EvSpawn ["git"; "clone"; "https://github.com/microsoft/vcpkg.git"; "/repo/vcpkg"]
                None [("PATH", "/usr/bin")] false;
        EvSpawn ["sh"; "/repo/vcpkg/bootstrap-vcpkg.sh"; "-disableMetrics"]
                (Some "/repo/vcpkg") [("PATH", "/usr/bin")] false].
Proof.
  apply (main_stops_without_executable Sim.inert (mkArgs false false None None)
           Sim.fresh Sim.fresh Sim.fresh "" "" "" "");
    reflexivity.
Defined.

(** ** Further properties of the tool check *)

(** X17. [check_dependencies] never raises and leaves the world as it
    is.  It probes every required tool, also after one was found missing,
    and returns [True] exactly when all were found.  Then it prints
    nothing; otherwise it prints the missing tools, in the order of the
    list and separated by a comma and a space, then the heading and the
    hint of the platform. *)
Theorem check_dependencies_reports {W Path : Type} (H : @Host W Path) (w : W) :
  check_dependencies H w
  = mkOut (Return (forallb (found H w) (required_tools (system H)))) w
          (EvCall CallCheckDependencies
           :: map (fun t => EvCall (CallCheckTool t)) (required_tools (system H))
           ++ (if forallb (found H w) (required_tools (system H)) then []
               else [EvPrint ("Missing required tools: "
                              ++ PyStr.join ", "
                                   (filter (fun t => negb (found H w t))
                                           (required_tools (system H))));
                     EvPrint (PyStr.NL ++ "Please install the missing tools:");
                     EvPrint (install_hint (system H))]))%list.
Proof.
  rewrite check_dependencies_run. unfold check_trace.
  pose proof (missing_tools_forallb H w) as Hiff.
  fold (missing_tools H w).
  destruct (missing_tools H w) as [|m ms] eqn:Hm.
  - rewrite (proj1 Hiff eq_refl). reflexivity.
  - destruct (forallb (found H w) (required_tools (system H))).
    + destruct Hiff as [_ Hb]. discriminate (Hb eq_refl).
    + reflexivity.
Qed.

Example check_dependencies_reports_ex :
  trace (check_dependencies Sim.freebsd Sim.fresh)
  = [EvCall CallCheckDependencies;
     EvCall (CallCheckTool "git"); EvCall (CallCheckTool "cmake");
     EvCall (CallCheckTool "ninja"); EvCall (CallCheckTool "gcc");
     EvPrint "Missing required tools: ninja, gcc";
     EvPrint (PyStr.NL ++ "Please install the missing tools:");
     EvPrint "  choco install cmake ninja git llvm"].
Proof. reflexivity. Qed.

(** X18. The tools probed are git, cmake, ninja and one compiler: clang
    on windows and on darwin, gcc on every other system; no run probes
    both. *)
Theorem check_dependencies_probes {W Path : Type} (H : @Host W Path) (w : W)
    (tool : string) :
  In (EvCall (CallCheckTool tool)) (trace (check_dependencies H w))
  <-> In tool ["git"; "cmake"; "ninja";
               if (system H =? "windows") || (system H =? "darwin")
               then "clang" else "gcc"].
Proof.
  rewrite check_dependencies_run. cbn [trace]. unfold check_trace.
  assert (Hreq : required_tools (system H)
                 = ["git"; "cmake"; "ninja";
                    if (system H =? "windows") || (system H =? "darwin")
                    then "clang" else "gcc"]).
  { unfold required_tools.
    destruct (system H =? "windows"), (system H =? "darwin"); reflexivity. }
  rewrite <- Hreq. split.
  - intros [Hd|Hin]; [discriminate|].
    apply in_app_or in Hin. destruct Hin as [Hin|Hin].
    + apply in_map_iff in Hin. destruct Hin as (t & [= ->] & Hin). exact Hin.
    + destruct (missing_tools H w); [contradiction|].
      cbn in Hin. repeat (destruct Hin as [Hin|Hin]; [discriminate|]). contradiction.
  - intros Hin. right. apply in_or_app. left.
    apply in_map_iff. exists tool. split; [reflexivity | exact Hin].
Qed.

(** X19. When a tool is missing, the last line [check_dependencies]
    prints is the apt-get line on linux and the brew line on darwin. *)
Theorem check_dependencies_hint {W Path : Type} (H : @Host W Path) (w : W) :
  res (check_dependencies H w) = Return false ->
  (system H = "linux" ->
   last (trace (check_dependencies H w)) (EvPrint "")
   = EvPrint "  sudo apt-get install build-essential cmake ninja-build git")
  /\ (system H = "darwin" ->
      last (trace (check_dependencies H w)) (EvPrint "")
      = EvPrint "  brew install cmake ninja git").
Proof.
  rewrite check_dependencies_run. cbn [res trace]. unfold check_trace.
  destruct (missing_tools H w) as [|m ms]; [discriminate|]. intros _.
  assert (Hlast : forall (pre : list (@event Path)) a b c,
             last (pre ++ [a; b; c]) (EvPrint "") = c).
  { intros pre a b c. induction pre as [|x pre IH]; [reflexivity|].
    cbn [app]. destruct pre; exact IH. }
  change (EvCall CallCheckDependencies :: ?l ++ ?r)%list
    with ((EvCall CallCheckDependencies :: l) ++ r)%list.
  rewrite Hlast. split; intros Hs; unfold install_hint; rewrite Hs; reflexivity.
Qed.

Lemma check_dependencies_hint_witness :
  last (trace (check_dependencies Sim.bare_linux Sim.fresh)) (EvPrint "")
  = EvPrint "  sudo apt-get install build-essential cmake ninja-build git"
  /\ last (trace (check_dependencies Sim.bare_mac Sim.fresh)) (EvPrint "")
     = EvPrint "  brew install cmake ninja git".
Proof.
  split.
  - apply (proj1 (check_dependencies_hint Sim.bare_linux Sim.fresh eq_refl)).
    reflexivity.
  - apply (proj2 (check_dependencies_hint Sim.bare_mac Sim.fresh eq_refl)).
    reflexivity.
Defined.

Lemma check_dependencies_probes_witness :
  In (EvCall (CallCheckTool "clang")) (trace (check_dependencies Sim.windows Sim.fresh)).
Proof.
  apply (proj2 (check_dependencies_probes Sim.windows Sim.fresh "clang")).
  cbn. tauto.
Defined.

(** X20. Up to the [--check] gate no flag is read: two runs with
    [--check] in the same world are the same run, whatever [--verbose],
    [--triplet] and [--vcpkg-root] say; and so are any two runs in a world
    where a required tool is missing. *)
Theorem flags_unread_before_gate {W Path : Type} (H : @Host W Path)
    (args args' : Args) (w : W) :
  (arg_check args = true -> arg_check args' = true ->
   main H args w = main H args' w)
  /\ (forallb (found H w) (required_tools (system H)) = false ->
      main H args w = main H args' w).
Proof.
  split.
  - intros Hc Hc'. destruct (missing_tools H w) as [|m ms] eqn:Hm.
    + now rewrite !main_run_check.
    + rewrite !main_run_missing; congruence.
  - intros Hf. assert (Hm : missing_tools H w <> []).
    { intros Hm. apply missing_tools_forallb in Hm. congruence. }
    now rewrite !main_run_missing.
Qed.

Lemma flags_unread_before_gate_witness :
  main Sim.linux (mkArgs true true (Some "x64-custom") (Some "/nowhere")) Sim.fresh
  = main Sim.linux (mkArgs false true None None) Sim.fresh.
Proof.
  apply (proj1 (flags_unread_before_gate Sim.linux
                  (mkArgs true true (Some "x64-custom") (Some "/nowhere"))
                  (mkArgs false true None None) Sim.fresh));
    reflexivity.
Defined.

(** ** The run from the command line *)

Example words_of_ex : PyStr.words_of " git  pull " ["git"; "pull"].
Proof. apply PyStrFacts.words_of_iff_split. reflexivity. Qed.

(** X10. When [main] returns, the status is 0 or 1.  When [argparse]
    ends the run (help, usage error), [main] does not return:
    [SystemExit] with the status of [argparse] goes up, and the script
    has printed, probed and started nothing. *)
Theorem run_exit_status {W Path : Type} (H : @Host W Path)
    (parse_args : list string -> parse_outcome) (argv : list string) (w : W) :
  (forall status,
      res (main_from_argv H parse_args argv w) = Return status ->
      status = 0%Z \/ status = 1%Z)
  /\ (forall status,
        parse_args argv = ParseExit status ->
        main_from_argv H parse_args argv w = mkOut (Raise (SystemExit status)) w []).
Proof.
  unfold main_from_argv. split.
  - intros status. destruct (parse_args argv) as [args|st].
    + apply main_exit_status.
    + discriminate.
  - intros status ->. reflexivity.
Qed.

Lemma run_exit_status_witness :
  main_from_argv Sim.linux Sim.parse_args ["--check"; "--bogus"] Sim.fresh
  = mkOut (Raise (SystemExit 2)) Sim.fresh [].
Proof.
  apply (proj2 (run_exit_status Sim.linux Sim.parse_args ["--check"; "--bogus"]
                  Sim.fresh) 2%Z).
  reflexivity.
Defined.

Example run_exit_status_ex :
  res (main_from_argv Sim.linux Sim.parse_args ["--check"; "-v"] Sim.fresh) = Return 0%Z
  /\ res (main_from_argv Sim.freebsd Sim.parse_args ["--triplet"; "x64-linux"] Sim.fresh)
     = Return 1%Z
  /\ res (main_from_argv Sim.linux Sim.parse_args ["--help"] Sim.fresh)
     = Raise (SystemExit 0).
Proof. repeat split. Qed.

(** X11. [main] raises in two places only.  Either [argparse] ended the
    run: the exception is its [SystemExit], and the script has printed,
    probed and started nothing.  Or the command line was accepted, every
    required tool was found and [--check] was not given: the exception
    comes from past the tool check. *)
Theorem run_raises_at_parse_or_past_check {W Path : Type} (H : @Host W Path)
    (parse_args : list string -> parse_outcome) (argv : list string) (w : W)
    (e : exn) :
  res (main_from_argv H parse_args argv w) = Raise e ->
  (exists status,
      parse_args argv = ParseExit status /\ e = SystemExit status
      /\ world (main_from_argv H parse_args argv w) = w
      /\ trace (main_from_argv H parse_args argv w) = [])
  \/ (exists args,
        parse_args argv = Parsed args
        /\ forallb (found H w) (required_tools (system H)) = true
        /\ arg_check args = false).
Proof.
  unfold main_from_argv. destruct (parse_args argv) as [args|st]; intros He.
  - right. exists args. split; [reflexivity|].
    exact (main_raises_only_past_check H args w e He).
  - left. exists st. cbn in He. injection He as <-. repeat split.
Qed.

Lemma run_raises_at_parse_or_past_check_witness :
  (exists status,
      Sim.parse_args ["--check"; "--help"] = ParseExit status
      /\ SystemExit 0 = SystemExit status
      /\ world (main_from_argv Sim.linux Sim.parse_args ["--check"; "--help"] Sim.fresh)
         = Sim.fresh
      /\ trace (main_from_argv Sim.linux Sim.parse_args ["--check"; "--help"] Sim.fresh)
         = [])
  \/ (exists args,
        Sim.parse_args ["--check"; "--help"] = Parsed args
        /\ forallb (found Sim.linux Sim.fresh) (required_tools (system Sim.linux)) = true
        /\ arg_check args = false).
Proof.
  apply (run_raises_at_parse_or_past_check Sim.linux Sim.parse_args
           ["--check"; "--help"] Sim.fresh (SystemExit 0)).
  reflexivity.
Defined.

(** X13. Every run whose command line [argparse] accepts first prints the
    project root and the platform, then enters [check_dependencies] and
    probes each required tool, in the order of the list, whatever the
    flags say.  The runs without the tool check are those [argparse] ends
    itself, before the script does anything. *)
Theorem run_checks_tools_unless_parse_exits {W Path : Type} (H : @Host W Path)
    (parse_args : list string -> parse_outcome) (argv : list string) (w : W) :
  match parse_args argv with
  | Parsed _ =>
      exists rest,
        trace (main_from_argv H parse_args argv w)
        = ([EvPrint ("Project root: " ++ path_str H (project_root_of H w));
            EvCall CallGetPlatform;
            EvPrint ("Platform: " ++ system H);
            EvCall CallCheckDependencies]
           ++ map (fun t => EvCall (CallCheckTool t)) (required_tools (system H))
           ++ rest)%list
  | ParseExit status =>
      main_from_argv H parse_args argv w = mkOut (Raise (SystemExit status)) w []
  end.
Proof.
  unfold main_from_argv. destruct (parse_args argv) as [args|st].
  - apply main_always_checks_tools.
  - reflexivity.
Qed.
